(** * python_to_coffeescript: the tree renderer and its token synchronizer

    A shallow embedding of [python_to_coffeescript.py]: the classes
    [TokenSync] (per-line token buckets, ignored lines, string queues, the
    leading-line watermark) and [CoffeeScriptTraverser] (the [do_*] rendering
    rules, [op_name], [indent], [visit]), followed by the properties of the
    specification that concern them.

    Conventions.
    - Python [str] is [string]; characters are the code points below 256.
    - Python [int] is [Z]; list subscripts follow Python (a negative index
      counts from the end, anything else out of range raises [IndexError]).
    - A method that can raise returns a [result]; a method that also reads or
      writes [self] is a function from the state to a [result] of a value and
      the new state.
    - [print] and [g.trace] append an event to the [stdout] field of the
      state. *)

From Stdlib Require Import ZArith Lia Ascii String List Bool Sorted.
From stdpp Require Import base list gmap strings.

Local Open Scope Z_scope.

(** ** Python results *)

Inductive exn : Type :=
| AssertionError
| AttributeError (attr : string)
| IndexError
| TypeError.

Inductive result (A : Type) : Type :=
| Ok (a : A)
| Raised (e : exn).
Arguments Ok {A} a.
Arguments Raised {A} e.

(** ** Python strings *)

Module Py.

(** [str.isspace] on one character, for code points below 256. *)
Definition isspace (c : ascii) : bool :=
  let n := nat_of_ascii c in
  ((9 <=? n) && (n <=? 13) || (28 <=? n) && (n <=? 32)
   || (n =? 133) || (n =? 160))%nat.

(** [s.lstrip()] *)
Fixpoint lstrip (s : string) : string :=
  match s with
  | EmptyString => EmptyString
  | String c s' => if isspace c then lstrip s' else s
  end.

(** [s.rstrip()] *)
Fixpoint rstrip (s : string) : string :=
  match s with
  | EmptyString => EmptyString
  | String c s' =>
      match rstrip s' with
      | EmptyString => if isspace c then EmptyString else String c EmptyString
      | r => String c r
      end
  end.

(** [s.strip()] *)
Definition strip (s : string) : string := lstrip (rstrip s).

(** [s.startswith(p)] *)
Definition startswith (p s : string) : bool := String.prefix p s.

(** [sep.join(l)] *)
Definition join (sep : string) (l : list string) : string := String.concat sep l.

(** [''.join(l)] *)
Definition join0 (l : list string) : string := String.concat EmptyString l.

(** [s.split(sep)] for a one-character separator. *)
Fixpoint split (sep : ascii) (s : string) : list string :=
  match s with
  | EmptyString => [EmptyString]
  | String c s' =>
      if Ascii.eqb c sep then EmptyString :: split sep s'
      else match split sep s' with
           | [] => [String c EmptyString]
           | w :: ws => String c w :: ws
           end
  end.

(** [s.lower()] on the ASCII letters. *)
Definition lower_char (c : ascii) : ascii :=
  let n := nat_of_ascii c in
  if ((65 <=? n) && (n <=? 90))%nat then ascii_of_nat (n + 32) else c.

Fixpoint lower (s : string) : string :=
  match s with
  | EmptyString => EmptyString
  | String c s' => String (lower_char c) (lower s')
  end.

(** [s * n]: the empty string when [n <= 0]. *)
Definition repeat (s : string) (n : Z) : string :=
  String.concat EmptyString (List.repeat s (Z.to_nat n)).

(** Truth value of a string: [bool(s)]. *)
Definition truthy (s : string) : bool :=
  match s with EmptyString => false | _ => true end.

(** [sub in s] *)
Fixpoint contains (sub s : string) : bool :=
  String.prefix sub s ||
  match s with
  | EmptyString => false
  | String _ s' => contains sub s'
  end.

(** [list(s)]: the characters of [s], as one-character strings. *)
Fixpoint chars (s : string) : list string :=
  match s with
  | EmptyString => []
  | String c s' => String c EmptyString :: chars s'
  end.

(** The position that the subscript [i] denotes in a list of length [len]:
    a negative subscript counts from the end; [None] stands for
    [IndexError]. *)
Definition index (len : nat) (i : Z) : option nat :=
  let n := Z.of_nat len in
  if (0 <=? i) && (i <? n) then Some (Z.to_nat i)
  else if (- n <=? i) && (i <? 0) then Some (Z.to_nat (n + i))
  else None.

(** [l[i]] *)
Definition getitem {A} (l : list A) (i : Z) : option A :=
  match index (length l) i with
  | Some k => l !! k
  | None => None
  end.

(** [l[i] = v] *)
Definition setitem {A} (l : list A) (i : Z) (v : A) : option (list A) :=
  match index (length l) i with
  | Some k => Some (<[k := v]> l)
  | None => None
  end.

(** [s.splitlines(True)]: the line boundaries of [str] below code point 256
    are LF, CR, CR LF, VT, FF, FS, GS, RS and NEL; the boundary stays at the
    end of its line. *)
Definition is_linebreak (c : ascii) : bool :=
  let n := nat_of_ascii c in
  ((10 <=? n) && (n <=? 13) || (28 <=? n) && (n <=? 30) || (n =? 133))%nat.

Fixpoint splitlines_keep (cur : string) (s : string) : list string :=
  match s with
  | EmptyString =>
      match cur with EmptyString => [] | _ => [cur] end
  | String c s' =>
      if is_linebreak c then
        match s' with
        | String c' s'' =>
            if Ascii.eqb c "013" && Ascii.eqb c' "010"
            then (cur +:+ String c (String c' EmptyString))
                   :: splitlines_keep EmptyString s''
            else (cur +:+ String c EmptyString)
                   :: splitlines_keep EmptyString s'
        | EmptyString => [cur +:+ String c EmptyString]
        end
      else splitlines_keep (cur +:+ String c EmptyString) s'
  end.

(** [s[:k]]: the first [k] characters, or all but the last [-k] when [k] is
    negative. *)
Fixpoint take (k : nat) (x : string) : string :=
  match k, x with
  | S k', String c x' => String c (take k' x')
  | _, _ => EmptyString
  end.

Definition slice_to (x : string) (k : Z) : string :=
  if 0 <=? k then take (Z.to_nat k) x
  else take (Z.to_nat (Z.of_nat (String.length x) + k)) x.

End Py.

(** ** The syntax tree

    The tree is supplied by Python's [ast] module.  A constructor carries the
    fields its [do_] rule reads; [lineno] is [None] when the node has no
    [lineno] attribute.  Fields read with [getattr(node, f, None)] are
    options.  [Other] stands for a node whose class has no [do_] rule in the
    traverser: the operator and expression-context classes that [op_name]
    receives, and the classes the traverser does not support. *)

Scheme All for list.
Scheme All for option.
Scheme All for sum.

Module ast.

(** The value of the [vararg] or [kwarg] field of [arguments]: an identifier,
    a [str] (Python 2), or an [ast.arg] node, of which the rule reads the
    [arg] field (Python 3). *)
Inductive star_name : Type :=
| Identifier (name : string)
| ArgNode (lineno : option Z) (arg : string).

Inductive node : Type :=
| Other (lineno : option Z) (kind : string)
| ClassDef (lineno : option Z) (name : string) (bases body : list node)
| FunctionDef (lineno : option Z) (name : string) (args : option node)
    (body decorator_list : list node)
| Interactive (lineno : option Z) (body : list node)
| Module (lineno : option Z) (body : list node)
| Lambda (lineno : option Z) (args body : node)
| Expr (lineno : option Z) (value : node)
| Expression (lineno : option Z) (body : node)
| GeneratorExp (lineno : option Z) (elt : node) (generators : list node)
(* vararg and kwarg: [None] when the field is absent or [None] *)
| arguments (lineno : option Z) (args : list node)
    (vararg kwarg : option star_name) (defaults : list node)
| arg (lineno : option Z) (arg : string)
| Attribute (lineno : option Z) (value : node) (attr : string)
(* s: the text [str(node.s)] *)
| Bytes (lineno : option Z) (s : string)
| Call (lineno : option Z) (func : node) (args keywords : list node)
    (starargs kwargs : option node)
| keyword (lineno : option Z) (arg : option string) (value : node)
| comprehension (lineno : option Z) (target iter : node) (ifs : list node)
(* keys: an entry is [None] for a [**mapping] item (Python 3) *)
| Dict (lineno : option Z) (keys : list (option node)) (values : list node)
| Ellipsis (lineno : option Z)
| ExtSlice (lineno : option Z) (dims : list node)
| Index (lineno : option Z) (value : node)
| List (lineno : option Z) (elts : list node)
| ListComp (lineno : option Z) (elt : node) (generators : list node)
| Name (lineno : option Z) (id : string)
(* value: the text [repr(node.value)] *)
| NameConstant (lineno : option Z) (value : string)
(* n: the text [repr(node.n)] *)
| Num (lineno : option Z) (n : string)
| Repr (lineno : option Z) (value : node)
| Slice (lineno : option Z) (lower upper step : option node)
| Str (lineno : option Z) (s : string)
| Subscript (lineno : option Z) (value slice : node)
| Tuple (lineno : option Z) (elts : list node)
| BinOp (lineno : option Z) (left op right : node)
| BoolOp (lineno : option Z) (op : node) (values : list node)
| Compare (lineno : option Z) (left : node) (ops comparators : list node)
| IfExp (lineno : option Z) (body test orelse : node)
| UnaryOp (lineno : option Z) (op operand : node)
| Assert (lineno : option Z) (test : node) (msg : option node)
| Assign (lineno : option Z) (targets : list node) (value : node)
| AugAssign (lineno : option Z) (target op value : node)
| Break (lineno : option Z)
| Continue (lineno : option Z)
| Delete (lineno : option Z) (targets : list node)
(* name: a node (Python 2) or an identifier (Python 3) *)
| ExceptHandler (lineno : option Z) (type : option node)
    (name : option (node + string)) (body : list node)
| Exec (lineno : option Z) (body : node) (globals locals : option node)
| For (lineno : option Z) (target iter : node) (body orelse : list node)
| Global (lineno : option Z) (names : list string)
| If (lineno : option Z) (test : node) (body orelse : list node)
(* names: the pairs [(alias.name, alias.asname)] *)
| Import (lineno : option Z) (names : list (string * option string))
| ImportFrom (lineno : option Z) (module : option string)
    (names : list (string * option string))
| Pass (lineno : option Z)
| Print (lineno : option Z) (values : list node) (dest : option node)
    (nl : option bool)
| Raise (lineno : option Z) (type inst tback : option node)
| Return (lineno : option Z) (value : option node)
| Try (lineno : option Z) (body handlers orelse finalbody : list node)
| TryExcept (lineno : option Z) (body handlers orelse : list node)
| TryFinally (lineno : option Z) (body finalbody : list node)
| While (lineno : option Z) (test : node) (body orelse : list node)
(* optional_vars: [None] when the node has no such attribute (Python 3),
   [Some None] when the attribute is [None] *)
| With (lineno : option Z) (optional_vars : option (option node))
    (body : list node)
| Yield (lineno : option Z) (value : option node).

(** [getattr(node, 'lineno', None)] *)
Definition lineno (n : node) : option Z :=
  match n with
  | Other l _ | ClassDef l _ _ _ | FunctionDef l _ _ _ _ | Interactive l _
  | Module l _ | Lambda l _ _ | Expr l _ | Expression l _
  | GeneratorExp l _ _ | arguments l _ _ _ _ | arg l _ | Attribute l _ _
  | Bytes l _ | Call l _ _ _ _ _ | keyword l _ _ | comprehension l _ _ _
  | Dict l _ _ | Ellipsis l | ExtSlice l _ | Index l _ | List l _
  | ListComp l _ _ | Name l _ | NameConstant l _ | Num l _ | Repr l _
  | Slice l _ _ _ | Str l _ | Subscript l _ _ | Tuple l _ | BinOp l _ _ _
  | BoolOp l _ _ | Compare l _ _ _ | IfExp l _ _ _ | UnaryOp l _ _
  | Assert l _ _ | Assign l _ _ | AugAssign l _ _ _ | Break l | Continue l
  | Delete l _ | ExceptHandler l _ _ _ | Exec l _ _ _ | For l _ _ _ _
  | Global l _ | If l _ _ _ | Import l _ | ImportFrom l _ _ | Pass l
  | Print l _ _ _ | Raise l _ _ _ | Return l _ | Try l _ _ _ _
  | TryExcept l _ _ _ | TryFinally l _ _ | While l _ _ _ | With l _ _
  | Yield l _ => l
  end.

(** [node.__class__.__name__] *)
Definition class_name (n : node) : string :=
  match n with
  | Other _ kind => kind
  | ClassDef _ _ _ _ => "ClassDef" | FunctionDef _ _ _ _ _ => "FunctionDef"
  | Interactive _ _ => "Interactive" | Module _ _ => "Module"
  | Lambda _ _ _ => "Lambda" | Expr _ _ => "Expr"
  | Expression _ _ => "Expression" | GeneratorExp _ _ _ => "GeneratorExp"
  | arguments _ _ _ _ _ => "arguments" | arg _ _ => "arg"
  | Attribute _ _ _ => "Attribute" | Bytes _ _ => "Bytes"
  | Call _ _ _ _ _ _ => "Call" | keyword _ _ _ => "keyword"
  | comprehension _ _ _ _ => "comprehension" | Dict _ _ _ => "Dict"
  | Ellipsis _ => "Ellipsis" | ExtSlice _ _ => "ExtSlice"
  | Index _ _ => "Index" | List _ _ => "List" | ListComp _ _ _ => "ListComp"
  | Name _ _ => "Name" | NameConstant _ _ => "NameConstant" | Num _ _ => "Num"
  | Repr _ _ => "Repr" | Slice _ _ _ _ => "Slice" | Str _ _ => "Str"
  | Subscript _ _ _ => "Subscript" | Tuple _ _ => "Tuple"
  | BinOp _ _ _ _ => "BinOp" | BoolOp _ _ _ => "BoolOp"
  | Compare _ _ _ _ => "Compare" | IfExp _ _ _ _ => "IfExp"
  | UnaryOp _ _ _ => "UnaryOp" | Assert _ _ _ => "Assert"
  | Assign _ _ _ => "Assign" | AugAssign _ _ _ _ => "AugAssign"
  | Break _ => "Break" | Continue _ => "Continue" | Delete _ _ => "Delete"
  | ExceptHandler _ _ _ _ => "ExceptHandler" | Exec _ _ _ _ => "Exec"
  | For _ _ _ _ _ => "For" | Global _ _ => "Global" | If _ _ _ _ => "If"
  | Import _ _ => "Import" | ImportFrom _ _ _ => "ImportFrom"
  | Pass _ => "Pass" | Print _ _ _ _ => "Print" | Raise _ _ _ _ => "Raise"
  | Return _ _ => "Return" | Try _ _ _ _ _ => "Try"
  | TryExcept _ _ _ _ => "TryExcept" | TryFinally _ _ _ => "TryFinally"
  | While _ _ _ _ => "While" | With _ _ _ => "With" | Yield _ _ => "Yield"
  end.

End ast.

(** ** Tokens and trace output *)

(** A token of [tokenize.generate_tokens]: the 5-tuple
    [(type, text, (srow, scol), (erow, ecol), physical line)]. *)
Record token : Type := Token {
  t1 : Z;
  t2 : string;
  t3 : Z * Z;
  t4 : Z * Z;
  t5 : string
}.

(** What the program writes with [print] and [g.trace]. *)
Inductive event : Type :=
| trace_underflow (n : Z) (s : string)
| trace_no_lineno_str (s : string)
| trace_no_lineno (class_name : string)
| print_can_not_happen (ops comparators : list string).

(** ** Utility functions and class LeoGlobals *)

(** [truncate(s, n)] *)
Definition truncate (x : string) (n : Z) : string :=
  if Z.of_nat (String.length x) <=? n then x
  else Py.slice_to x (n - 3) +:+ "...".

Definition TAB : string := String "009" EmptyString.

(** [g.computeLeadingWhitespace(width, tab_width)].  [int(width / tab_width)]
    is the integer quotient: [/] is integer division in Python 2, and in
    Python 3 the float quotient of two positive integers truncates to it as
    long as [width] is below 2^53. *)
Definition computeLeadingWhitespace (width tab_width : Z) : string :=
  if width <=? 0 then EmptyString
  else if 1 <? tab_width then
    Py.repeat TAB (width / tab_width) +:+ Py.repeat " " (width mod tab_width)
  else Py.repeat " " width.

(** The loop of [g.computeLeadingWhitespaceWidth(s, tab_width)]; [None]
    stands for the [ZeroDivisionError] of [w % abs(tab_width)]. *)
Fixpoint computeLeadingWhitespaceWidth_loop (tab_width : Z) (x : string)
    (w : Z) : option Z :=
  match x with
  | EmptyString => Some w
  | String ch x' =>
      if Ascii.eqb ch " " then
        computeLeadingWhitespaceWidth_loop tab_width x' (w + 1)
      else if Ascii.eqb ch "009" then
        if Z.abs tab_width =? 0 then None
        else computeLeadingWhitespaceWidth_loop tab_width x'
               (w + (Z.abs tab_width - w mod Z.abs tab_width))
      else Some w
  end.

Definition computeLeadingWhitespaceWidth (x : string) (tab_width : Z)
  : option Z :=
  computeLeadingWhitespaceWidth_loop tab_width x 0.

(** [g.splitLines(s)] *)
Definition splitLines (x : string) : list string :=
  if Py.truthy x then Py.splitlines_keep EmptyString x else [].

(** [class ReadLinesClass]: the [readline] callable handed to the
    tokenizer. *)
Module ReadLinesClass.

Record t : Type := mk { lines : list string; i : Z }.

(** [__init__(s)] *)
Definition init (x : string) : t := mk (splitLines x) 0.

(** [next()]: the line and the object afterwards. *)
Definition next (self : t) : result (string * t) :=
  if i self <? Z.of_nat (length (lines self)) then
    match Py.getitem (lines self) (i self) with
    | Some line => Ok (line, mk (lines self) (i self + 1))
    | None => Raised IndexError
    end
  else Ok (EmptyString, self).

(** [k] calls of [next()] in a row. *)
Fixpoint read (k : nat) (self : t) : result (list string * t) :=
  match k with
  | O => Ok ([], self)
  | S k' =>
      match next self with
      | Raised e => Raised e
      | Ok (line, self') =>
          match read k' self' with
          | Raised e => Raised e
          | Ok (ls, self'') => Ok (line :: ls, self'')
          end
      end
  end.

End ReadLinesClass.

Section Program.

(** Python's [token.tok_name] table and [token.NEWLINE] belong to the
    standard library, not to the program: they are parameters here.
    [tok_name] is a function: every token type of the stream is taken to be
    a key of the table, as the types that [tokenize] produces are, so the
    [KeyError] of [tok_name[t1]] for another number is not modelled.  The
    token stream is a list, as [assert isinstance(tokens, list)] demands. *)
Variable tok_name : Z -> string.
Variable NEWLINE : Z.

(** ** class TokenSync *)

Record TokenSync : Type := mkTokenSync {
  s : string;
  first_leading_line : Z;
  lines : list string;
  nl_token : token;
  line_tokens : list (list token);
  blank_lines : list Z;
  string_tokens : list (list token);
  ignored_lines : list (option token)
}.

Definition set_first_leading_line (v : Z) (self : TokenSync) : TokenSync :=
  mkTokenSync (s self) v (lines self) (nl_token self) (line_tokens self)
    (blank_lines self) (string_tokens self) (ignored_lines self).

Definition set_string_tokens (v : list (list token)) (self : TokenSync)
  : TokenSync :=
  mkTokenSync (s self) (first_leading_line self) (lines self) (nl_token self)
    (line_tokens self) (blank_lines self) v (ignored_lines self).

(** [g.toUnicode(s)] returns a string unchanged. *)
Definition toUnicode (x : string) : string := x.

Definition token_kind (tk : token) : string :=
  toUnicode (Py.lower (tok_name (t1 tk))).

Definition token_raw_val (tk : token) : string := toUnicode (t5 tk).

Definition token_val (tk : token) : string := toUnicode (t2 tk).

Definition is_line_comment (tk : token) : bool :=
  let kind := Py.lower (tok_name (t1 tk)) in
  let raw_val := t5 tk in
  String.eqb kind "comment" && Py.startswith "#" (Py.lstrip raw_val).

Definition make_nl_token : token :=
  Token NEWLINE (String "010" EmptyString) (0, 0) (0, 0)
    (String "010" EmptyString).

(** The bucket of a token in [make_line_tokens]. *)
Definition token_line (tk : token) : Z :=
  let kind := Py.lower (tok_name (t1 tk)) in
  if String.eqb kind "string" then fst (t4 tk) - 1 else fst (t3 tk) - 1.

(** The second loop of [make_line_tokens]: [result[line].append(token)]. *)
Fixpoint make_line_tokens_loop (tokens : list token)
    (res : list (list token)) : result (list (list token)) :=
  match tokens with
  | [] => Ok res
  | tk :: tokens' =>
      let line := token_line tk in
      match Py.getitem res line with
      | None => Raised IndexError
      | Some bucket =>
          match Py.setitem res line (bucket ++ [tk]) with
          | None => Raised IndexError
          | Some res' => make_line_tokens_loop tokens' res'
          end
      end
  end.

Definition make_line_tokens (lines : list string) (tokens : list token)
  : result (list (list token)) :=
  let n := length lines in
  match make_line_tokens_loop tokens (replicate (n + 1) []) with
  | Raised e => Raised e
  | Ok res =>
      if Nat.eqb (length lines + 1) (length res) then Ok res
      else Raised AssertionError
  end.

(** [make_blank_lines]; [i] is the index [enumerate] has reached. *)
Fixpoint make_blank_lines_from (i : Z) (line_tokens : list (list token))
  : list Z :=
  match line_tokens with
  | [] => []
  | aList :: rest =>
      match aList with
      | [z] => if String.eqb (token_kind z) "nl"
               then i :: make_blank_lines_from (i + 1) rest
               else make_blank_lines_from (i + 1) rest
      | _ => make_blank_lines_from (i + 1) rest
      end
  end.

Definition make_blank_lines (line_tokens : list (list token)) : list Z :=
  make_blank_lines_from 0 line_tokens.

Definition make_string_tokens (line_tokens : list (list token))
  : result (list (list token)) :=
  let res :=
    map (fun aList =>
           List.filter (fun z => String.eqb (token_kind z) "string") aList)
        line_tokens in
  if Nat.eqb (length res) (length line_tokens) then Ok res
  else Raised AssertionError.

(** [i in self.blank_lines] *)
Definition in_list (i : Z) (l : list Z) : bool := existsb (Z.eqb i) l.

(** The first loop of [make_ignored_lines]: the first full-line comment of
    the bucket, else the newline token for a blank line, else [None]. *)
Fixpoint make_ignored_lines_from (nl : token) (blank : list Z) (i : Z)
    (line_tokens : list (list token)) : list (option token) :=
  match line_tokens with
  | [] => []
  | aList :: rest =>
      (match find is_line_comment aList with
       | Some z => Some z
       | None => if in_list i blank then Some nl else None
       end) :: make_ignored_lines_from nl blank (i + 1) rest
  end.

(** The second loop of [make_ignored_lines]: the index of the first entry
    that is not [None], else the length. *)
Fixpoint first_ignored_from (i : Z) (res : list (option token)) : Z :=
  match res with
  | [] => i
  | Some _ :: _ => i
  | None :: rest => first_ignored_from (i + 1) rest
  end.

(** [make_ignored_lines] returns the list and sets [first_leading_line]. *)
Definition make_ignored_lines (nl : token) (blank : list Z)
    (line_tokens : list (list token)) : result (list (option token) * Z) :=
  let res := make_ignored_lines_from nl blank 0 line_tokens in
  if Nat.eqb (length res) (length line_tokens)
  then Ok (res, first_ignored_from 0 res)
  else Raised AssertionError.

(** [TokenSync.__init__] *)
Definition TokenSync_init (src : string) (tokens : list token)
  : result TokenSync :=
  let lines := map Py.rstrip (splitLines src) in
  let nl := make_nl_token in
  match make_line_tokens lines tokens with
  | Raised e => Raised e
  | Ok lt =>
      let blank := make_blank_lines lt in
      match make_string_tokens lt with
      | Raised e => Raised e
      | Ok st =>
          match make_ignored_lines nl blank lt with
          | Raised e => Raised e
          | Ok (ig, first) => Ok (mkTokenSync src first lines nl lt blank st ig)
          end
      end
  end.

(** The [while] loop of [leading_lines], run [k] times from index [i]. *)
Fixpoint leading_lines_loop (ignored : list (option token)) (k : nat) (i : Z)
    (leading : list string) : result (list string * Z) :=
  match k with
  | O => Ok (leading, i)
  | S k' =>
      match Py.getitem ignored i with
      | None => Raised IndexError
      | Some tk =>
          let leading' :=
            match tk with
            | Some t =>
                leading ++ [Py.rstrip (token_raw_val t) +:+ String "010" EmptyString]
            | None => leading
            end in
          leading_lines_loop ignored k' (i + 1) leading'
      end
  end.

(** [leading_lines]: the loop runs while [i < n], that is [n - i] times. *)
Definition leading_lines (node : ast.node) (self : TokenSync)
  : result (list string * TokenSync) :=
  match ast.lineno node with
  | Some n =>
      let i := first_leading_line self in
      match leading_lines_loop (ignored_lines self) (Z.to_nat (n - i)) i [] with
      | Raised e => Raised e
      | Ok (leading, i') => Ok (leading, set_first_leading_line i' self)
      end
  | None => Ok ([], self)
  end.

Definition leading_string (node : ast.node) (self : TokenSync)
  : result (string * TokenSync) :=
  match leading_lines node self with
  | Raised e => Raised e
  | Ok (l, self') => Ok (Py.join0 l, self')
  end.

(** [sync_string]; the node is a [Str] with a [lineno], [node_s] is its
    [s] field.  The third component is the trace output. *)
Definition sync_string (n : Z) (node_s : string) (self : TokenSync)
  : result (string * TokenSync * list event) :=
  match Py.getitem (string_tokens self) (n - 1) with
  | None => Raised IndexError
  | Some tokens =>
      match tokens with
      | tk :: tokens' =>
          match Py.setitem (string_tokens self) (n - 1) tokens' with
          | None => Raised IndexError
          | Some st => Ok (token_val tk, set_string_tokens st self, [])
          end
      | [] => Ok (node_s, self, [trace_underflow n node_s])
      end
  end.

(** The [for] loop of [trailing_comment]. *)
Fixpoint trailing_comment_scan (tokens : list token) : string :=
  match tokens with
  | [] => String "010" EmptyString
  | tk :: rest =>
      if String.eqb (token_kind tk) "comment"
         && negb (Py.startswith "#" (Py.strip (Py.rstrip (token_raw_val tk))))
      then " " +:+ Py.rstrip (token_val tk) +:+ String "010" EmptyString
      else trailing_comment_scan rest
  end.

(** [trailing_comment]; [lineno] is [getattr(node, 'lineno', None)] and
    [cls] the class name of the argument, which the traverser also calls
    with a list ([node.orelse], [node.finalbody]). *)
Definition trailing_comment_at (lineno : option Z) (cls : string)
    (self : TokenSync) : result (string * list event) :=
  match lineno with
  | Some n =>
      match Py.getitem (line_tokens self) (n - 1) with
      | None => Raised IndexError
      | Some tokens => Ok (trailing_comment_scan tokens, [])
      end
  | None => Ok (String "010" EmptyString, [trace_no_lineno cls])
  end.

Definition trailing_comment (node : ast.node) (self : TokenSync)
  : result (string * list event) :=
  trailing_comment_at (ast.lineno node) (ast.class_name node) self.

(** ** class CoffeeScriptTraverser: state and plumbing *)

(** The mutable state of one [format] call: the traverser's [level] and
    [class_stack], the [TokenSync] object behind the four redirected
    methods, and the text written to standard output. *)
Record state : Type := mkState {
  level : Z;
  class_stack : list string;
  sync : TokenSync;
  stdout : list event
}.

Definition M (A : Type) : Type := state -> result (A * state).

Definition ret {A} (a : A) : M A := fun st => Ok (a, st).

Definition bind {A B} (m : M A) (k : A -> M B) : M B :=
  fun st => match m st with
            | Ok (a, st') => k a st'
            | Raised e => Raised e
            end.

Definition raise {A} (e : exn) : M A := fun _ => Raised e.

Notation "'let*' x ':=' c 'in' k" := (bind c (fun x => k))
  (at level 10, x pattern, c at level 100, k at level 200).

Definition mapM {A B} (f : A -> M B) : list A -> M (list B) :=
  fix go (l : list A) : M (list B) :=
    match l with
    | [] => ret []
    | x :: l' => let* y := f x in let* ys := go l' in ret (y :: ys)
    end.

Definition get_level : M Z := fun st => Ok (level st, st).

Definition set_level (v : Z) : M unit :=
  fun st => Ok (tt, mkState v (class_stack st) (sync st) (stdout st)).

Definition get_class_stack : M (list string) :=
  fun st => Ok (class_stack st, st).

Definition set_class_stack (v : list string) : M unit :=
  fun st => Ok (tt, mkState (level st) v (sync st) (stdout st)).

Definition write (evs : list event) : M unit :=
  fun st => Ok (tt, mkState (level st) (class_stack st) (sync st)
                      (stdout st ++ evs)).

(** The redirections set up by [format]. *)
Definition self_leading_lines (node : ast.node) : M (list string) :=
  fun st => match leading_lines node (sync st) with
            | Ok (l, ts) =>
                Ok (l, mkState (level st) (class_stack st) ts (stdout st))
            | Raised e => Raised e
            end.

Definition self_leading_string (node : ast.node) : M string :=
  fun st => match leading_string node (sync st) with
            | Ok (l, ts) =>
                Ok (l, mkState (level st) (class_stack st) ts (stdout st))
            | Raised e => Raised e
            end.

Definition self_trailing_comment_at (lineno : option Z) (cls : string)
  : M string :=
  fun st => match trailing_comment_at lineno cls (sync st) with
            | Ok (x, evs) =>
                Ok (x, mkState (level st) (class_stack st) (sync st)
                         (stdout st ++ evs))
            | Raised e => Raised e
            end.

Definition self_trailing_comment (node : ast.node) : M string :=
  self_trailing_comment_at (ast.lineno node) (ast.class_name node).

(** [trailing_comment] called with a list of statements. *)
Definition self_trailing_comment_list : M string :=
  self_trailing_comment_at None "list".

Definition self_sync_string (n : Z) (node_s : string) : M string :=
  fun st => match sync_string n node_s (sync st) with
            | Ok (x, ts, evs) =>
                Ok (x, mkState (level st) (class_stack st) ts
                         (stdout st ++ evs))
            | Raised e => Raised e
            end.

Definition LF : string := String "010" EmptyString.

(** The [while] loop of [indent]: the number of leading newlines and the
    rest of the string. *)
Fixpoint indent_newlines (x : string) : Z * string :=
  match x with
  | String c x' =>
      if Ascii.eqb c "010"
      then let (n, r) := indent_newlines x' in (n + 1, r)
      else (0, x)
  | EmptyString => (0, EmptyString)
  end.

Definition indent (x : string) : M string :=
  let* lvl := get_level in
  let (n, x') := indent_newlines x in
  ret (Py.repeat LF n +:+ Py.repeat (Py.repeat " " 4) lvl +:+ x').

(** [self.level += 1; ...; self.level -= 1] around a computation. *)
Definition indented {A} (m : M A) : M A :=
  let* lvl := get_level in
  let* _ := set_level (lvl + 1) in
  let* r := m in
  let* lvl' := get_level in
  let* _ := set_level (lvl' - 1) in
  ret r.

(** [self.class_stack.append(name); ...; self.class_stack.pop()] around a
    computation; [pop] raises [IndexError] on an empty list. *)
Definition with_class {A} (name : string) (m : M A) : M A :=
  let* cs := get_class_stack in
  let* _ := set_class_stack (cs ++ [name]) in
  let* r := m in
  let* cs' := get_class_stack in
  let* _ := match cs' with
            | [] => raise IndexError
            | _ :: _ => set_class_stack (removelast cs')
            end in
  ret r.

(** The loop [for z in body: self.level += 1; result.append(self.visit(z));
    self.level -= 1]. *)
Definition visit_body (visit : ast.node -> M string) (body : list ast.node)
  : M (list string) :=
  mapM (fun z => indented (visit z)) body.

(** [self.visit(x)] where [x] may be [None]. *)
Definition visit_or_none (visit : ast.node -> M string)
    (x : option ast.node) : M string :=
  match x with
  | None => ret "None"
  | Some n => visit n
  end.

(** ** Operators *)

Definition op_table : list (string * string) :=
  [ ("Add", "+"); ("BitAnd", "&"); ("BitOr", "|"); ("BitXor", "^");
    ("Div", "/"); ("FloorDiv", "//"); ("LShift", "<<"); ("Mod", "%");
    ("Mult", "*"); ("Pow", "**"); ("RShift", ">>"); ("Sub", "-");
    ("And", " and "); ("Or", " or ");
    ("Eq", "=="); ("Gt", ">"); ("GtE", ">="); ("In", " in ");
    ("Is", " is "); ("IsNot", " is not "); ("Lt", "<"); ("LtE", "<=");
    ("NotEq", "!="); ("NotIn", " not in ");
    ("AugLoad", "<AugLoad>"); ("AugStore", "<AugStore>"); ("Del", "<Del>");
    ("Load", "<Load>"); ("Param", "<Param>"); ("Store", "<Store>");
    ("Invert", "~"); ("Not", " not "); ("UAdd", "+"); ("USub", "-") ].

(** The dictionary [d] of [op_name]. *)
Definition d : gmap string string := list_to_map op_table.

(** [op_name(node, strict)]: [d.get(kind, '<%s>' % kind)], then the
    assertion [assert name, kind] in strict mode. *)
Definition op_name (node : ast.node) (strict : bool) : result string :=
  let kind := ast.class_name node in
  let name := default ("<" +:+ kind +:+ ">") (d !! kind) in
  if strict && negb (Py.truthy name) then Raised AssertionError
  else Ok name.

(** [self.op_name(node)] inside a rule: [strict] has its default, [True]. *)
Definition self_op_name (node : ast.node) : M string :=
  fun st => match op_name node true with
            | Ok x => Ok (x, st)
            | Raised e => Raised e
            end.

(** ** The rendering rules

    Each rule takes [visit] as a parameter; [visit] below ties the knot. *)

Section Rules.

Variable visit : ast.node -> M string.

(** The header text of [do_FunctionDef]: from the rendered [arguments],
    the class stack and the trailing comment to
    ['%s%s%s->%s' % (name, sep, args, tail)]. *)
Definition FunctionDef_params (cs : list string) (args : string) : string :=
  let args1 := map Py.strip (Py.split "," args) in
  let args2 :=
    match cs, args1 with
    | _ :: _, a0 :: rest => if String.eqb a0 "@" then rest else args1
    | _, _ => args1
    end in
  Py.join ", " args2.

Definition FunctionDef_header (cs : list string) (name args tail : string)
  : string :=
  let args3 := FunctionDef_params cs args in
  let args4 := if Py.truthy args3 then "(" +:+ args3 +:+ ") " else EmptyString in
  let sep := match cs with _ :: _ => ": " | [] => " = " end in
  name +:+ sep +:+ args4 +:+ "->" +:+ tail.

Definition do_ClassDef (node : ast.node) (name : string)
    (bases body : list ast.node) : M string :=
  let* res := self_leading_lines node in
  let* tail := self_trailing_comment node in
  let* bases' := mapM visit bases in
  let x := match bases' with
           | _ :: _ => "class " +:+ name +:+ " extends " +:+ Py.join ", " bases'
           | [] => "class " +:+ name
           end in
  let* line := indent (x +:+ tail) in
  let* rs := with_class name (visit_body visit body) in
  ret (Py.join0 (res ++ [line] ++ rs)).

Definition do_FunctionDef (node : ast.node) (name : string)
    (args : option ast.node) (body decorator_list : list ast.node)
  : M string :=
  let* res := self_leading_lines node in
  let* decos := mapM (fun z =>
                        let* tail := self_trailing_comment z in
                        let* v := visit z in
                        indent ("@" +:+ v +:+ tail)) decorator_list in
  let* args' := match args with
                | Some a => visit a
                | None => ret EmptyString
                end in
  let* cs := get_class_stack in
  let* tail := self_trailing_comment node in
  let* line := indent (FunctionDef_header cs name args' tail) in
  let* rs := visit_body visit body in
  ret (Py.join0 (res ++ decos ++ [line] ++ rs)).

(** [do_Interactive] returns [None], which the assertion of [visit] on the
    type of the result rejects. *)
Definition do_Interactive (body : list ast.node) : M string :=
  let* _ := mapM visit body in
  raise AssertionError.

Definition do_Module (body : list ast.node) : M string :=
  let* rs := mapM visit body in
  ret (Py.join0 rs).

Definition do_Lambda (args body : ast.node) : M string :=
  let* a := visit args in
  let* b := visit body in
  indent ("lambda " +:+ a +:+ ": " +:+ b).

Definition do_Expr (node value : ast.node) : M string :=
  let* head := self_leading_string node in
  let* tail := self_trailing_comment node in
  let* x := visit value in
  let* line := indent x in
  ret (head +:+ line +:+ tail).

Definition do_Expression (body : ast.node) : M string :=
  let* b := visit body in
  ret (b +:+ LF).

Definition or_none_marker (z : string) : string :=
  if Py.truthy z then z else "<**None**>".

Definition do_GeneratorExp (elt : ast.node) (generators : list ast.node)
  : M string :=
  let* e := visit elt in
  let* gens := mapM visit generators in
  ret ("<gen " +:+ e +:+ " for "
       +:+ Py.join "," (map or_none_marker gens) +:+ ">").

(** The first loop of [do_arguments]: defaults go to the last arguments. *)
Fixpoint arguments_loop (n_plain : Z) (defaults : list string) (i : Z)
    (args : list string) : result (list string) :=
  match args with
  | [] => Ok []
  | a :: rest =>
      match arguments_loop n_plain defaults (i + 1) rest with
      | Raised e => Raised e
      | Ok rest' =>
          if i <? n_plain then Ok (a :: rest')
          else match Py.getitem defaults (i - n_plain) with
               | Some dv => Ok ((a +:+ "=" +:+ dv) :: rest')
               | None => Raised IndexError
               end
      end
  end.

(** [if name: ...; args2.append(prefix + name)]: the test is of the field's
    value, so an empty identifier is skipped and an [ast.arg] node never is. *)
Definition star_arg (prefix : string) (name : option ast.star_name)
    : list string :=
  match name with
  | Some (ast.Identifier n) => if Py.truthy n then [prefix +:+ n] else []
  | Some (ast.ArgNode _ a) => [prefix +:+ a]
  | None => []
  end.

Definition do_arguments (args : list ast.node)
    (vararg kwarg : option ast.star_name)
    (defaults : list ast.node) : M string :=
  let* args' := mapM visit args in
  let* defaults' := mapM visit defaults in
  let n_plain := Z.of_nat (length args') - Z.of_nat (length defaults') in
  match arguments_loop n_plain defaults' 0 args' with
  | Raised e => raise e
  | Ok args2 =>
      ret (Py.join "," (args2 ++ star_arg "*" vararg ++ star_arg "**" kwarg))
  end.

Definition do_arg (arg : string) : M string := ret arg.

Definition do_Attribute (value : ast.node) (attr : string) : M string :=
  let* val := visit value in
  let val' := if String.eqb val "@" then "@" else val +:+ "." in
  ret (val' +:+ attr).

Definition do_Bytes (x : string) : M string := ret x.

Definition do_Call (func : ast.node) (args keywords : list ast.node)
    (starargs kwargs : option ast.node) : M string :=
  let* f := visit func in
  let* args1 := mapM visit args in
  let* args2 := mapM visit keywords in
  let* args3 := match starargs with
                | Some a => let* v := visit a in ret ["*" +:+ v]
                | None => ret []
                end in
  let* args4 := match kwargs with
                | Some a => let* v := visit a in ret ["**" +:+ v]
                | None => ret []
                end in
  let args' := List.filter Py.truthy (args1 ++ args2 ++ args3 ++ args4) in
  ret (f +:+ "(" +:+ Py.join "," args' +:+ ")").

Definition do_keyword (arg : option string) (value : ast.node) : M string :=
  let* v := visit value in
  ret (default "None" arg +:+ "=" +:+ v).

Definition do_comprehension (target iter : ast.node) (ifs : list ast.node)
  : M string :=
  let* name := visit target in
  let* it := visit iter in
  let* ifs' := mapM visit ifs in
  ret (Py.join0 ((name +:+ " in " +:+ it)
                 :: match ifs' with
                    | _ :: _ => [" if " +:+ Py.join0 ifs']
                    | [] => []
                    end)).

(** The loop of [do_Dict].  An entry pairs [node.keys[i]] and
    [node.values[i]], each with its suspended visit: the loop runs them in
    the order of the source. *)
Fixpoint Dict_loop
    (entries : list ((option ast.node * M string) * (ast.node * M string)))
  : M (list string) :=
  match entries with
  | ((key, visit_key), (value, visit_value)) :: entries' =>
      let* head := match key with
                   | Some k => self_leading_lines k
                   | None => ret []
                   end in
      let head' := List.filter (fun z => Py.truthy (Py.strip z)) head in
      let items1 := match head' with
                    | _ :: _ => Py.chars (LF +:+ Py.join0 head')
                    | [] => []
                    end in
      let* tail := self_trailing_comment value in
      let* k := visit_key in
      let* v := visit_value in
      let* line := indent (k +:+ ":" +:+ v +:+ tail) in
      let* items := Dict_loop entries' in
      ret (items1 ++ [line] ++ items)
  | [] => ret []
  end.

Definition do_Dict (keys : list (option ast.node)) (values : list ast.node)
  : M string :=
  if negb (Nat.eqb (length keys) (length values)) then raise AssertionError
  else
    let* items :=
      indented
        (Dict_loop (combine (map (fun k => (k, visit_or_none visit k)) keys)
                            (map (fun v => (v, visit v)) values))) in
    let* close := match items with
                  | _ :: _ => indent "}"
                  | [] => ret "}"
                  end in
    ret (Py.join0 (["{"] ++ items ++ [close])).

Definition do_Ellipsis : M string := ret "...".

Definition do_ExtSlice (dims : list ast.node) : M string :=
  let* ds := mapM visit dims in ret (Py.join ":" ds).

Definition do_Index (value : ast.node) : M string := visit value.

Definition do_List (elts : list ast.node) : M string :=
  let* es := mapM visit elts in ret ("[" +:+ Py.join "," es +:+ "]").

Definition do_ListComp (elt : ast.node) (generators : list ast.node)
  : M string :=
  let* e := visit elt in
  let* gens := mapM visit generators in
  ret (e +:+ " for " +:+ Py.join0 (map or_none_marker gens)).

Definition do_Name (id : string) : M string :=
  ret (if String.eqb id "self" then "@" else id).

Definition do_NameConstant (value : string) : M string :=
  ret (if String.eqb value "True" || String.eqb value "False"
       then "bool" else value).

Definition do_Num (n : string) : M string := ret n.

Definition do_Repr (value : ast.node) : M string :=
  let* v := visit value in ret ("repr(" +:+ v +:+ ")").

Definition visit_if_present (x : option ast.node) : M string :=
  match x with
  | Some n => visit n
  | None => ret EmptyString
  end.

Definition do_Slice (lower upper step : option ast.node) : M string :=
  let* l := visit_if_present lower in
  let* u := visit_if_present upper in
  let* st := visit_if_present step in
  ret (if Py.truthy st then l +:+ ":" +:+ u +:+ ":" +:+ st
       else l +:+ ":" +:+ u).

Definition do_Str (node : ast.node) (x : string) : M string :=
  match ast.lineno node with
  | Some n => self_sync_string n x
  | None => let* _ := write [trace_no_lineno_str x] in ret x
  end.

Definition do_Subscript (value slice : ast.node) : M string :=
  let* v := visit value in
  let* sl := visit slice in
  ret (v +:+ "[" +:+ sl +:+ "]").

Definition do_Tuple (elts : list ast.node) : M string :=
  let* es := mapM visit elts in ret ("(" +:+ Py.join ", " es +:+ ")").

Definition do_BinOp (left op right : ast.node) : M string :=
  let* l := visit left in
  let* o := self_op_name op in
  let* r := visit right in
  ret (l +:+ o +:+ r).

Definition do_BoolOp (op : ast.node) (values : list ast.node) : M string :=
  let* o := self_op_name op in
  let* vs := mapM visit values in
  ret (Py.join o vs).

Definition do_Compare (left : ast.node) (ops comparators : list ast.node)
  : M string :=
  let* lt := visit left in
  let* ops' := mapM self_op_name ops in
  let* comps := mapM visit comparators in
  if Nat.eqb (length ops') (length comps) then
    ret (Py.join0 (lt :: map (fun oc => fst oc +:+ snd oc)
                             (combine ops' comps)))
  else
    let* _ := write [print_can_not_happen ops' comps] in
    ret (Py.join0 [lt]).

Definition do_IfExp (body test orelse : ast.node) : M string :=
  let* b := visit body in
  let* t := visit test in
  let* o := visit orelse in
  ret (b +:+ " if " +:+ t +:+ " else " +:+ o +:+ " ").

Definition do_UnaryOp (op operand : ast.node) : M string :=
  let* o := self_op_name op in
  let* v := visit operand in
  ret (o +:+ v).

(** The common end of the simple statements:
    [return head + self.indent(s) + tail]. *)
Definition statement (head x tail : string) : M string :=
  let* line := indent x in
  ret (head +:+ line +:+ tail).

(** [do_Continue] and [do_Global] take [head] from [leading_lines], a list:
    [head + self.indent(s)] adds a string to a list. *)
Definition statement_list_head (head : list string) (x tail : string)
  : M string :=
  let* line := indent x in
  raise TypeError.

Definition do_Assert (node test : ast.node) (msg : option ast.node)
  : M string :=
  let* head := self_leading_string node in
  let* tail := self_trailing_comment node in
  let* t := visit test in
  let* x := match msg with
            | Some m => let* m' := visit m in
                        ret ("assert " +:+ t +:+ ", " +:+ m')
            | None => ret ("assert " +:+ t)
            end in
  statement head x tail.

Definition do_Assign (node : ast.node) (targets : list ast.node)
    (value : ast.node) : M string :=
  let* head := self_leading_string node in
  let* tail := self_trailing_comment node in
  let* ts := mapM visit targets in
  let* v := visit value in
  statement head (Py.join "=" ts +:+ "=" +:+ v) tail.

Definition do_AugAssign (node target op value : ast.node) : M string :=
  let* head := self_leading_string node in
  let* tail := self_trailing_comment node in
  let* t := visit target in
  let* o := self_op_name op in
  let* v := visit value in
  statement head (t +:+ o +:+ "=" +:+ v) tail.

Definition do_Break (node : ast.node) : M string :=
  let* head := self_leading_string node in
  let* tail := self_trailing_comment node in
  statement head "break" tail.

Definition do_Continue (node : ast.node) : M string :=
  let* head := self_leading_lines node in
  let* tail := self_trailing_comment node in
  statement_list_head head "continue" tail.

Definition do_Delete (node : ast.node) (targets : list ast.node) : M string :=
  let* head := self_leading_string node in
  let* tail := self_trailing_comment node in
  let* ts := mapM visit targets in
  statement head ("del " +:+ Py.join "," ts) tail.

Definition do_ExceptHandler (node : ast.node) (type : option ast.node)
    (name : option (ast.node + string)) (body : list ast.node) : M string :=
  let* res := self_leading_lines node in
  let* tail := self_trailing_comment node in
  let* r1 := indent "except" in
  let* r2 := match type with
             | Some t => let* t' := visit t in ret [" " +:+ t']
             | None => ret []
             end in
  let* r3 := match name with
             | Some (inl n) => let* n' := visit n in ret [" as " +:+ n']
             | Some (inr n) => ret (if Py.truthy n then [" as " +:+ n] else [])
             | None => ret []
             end in
  let* rs := visit_body visit body in
  ret (Py.join0 (res ++ [r1] ++ r2 ++ r3 ++ [":" +:+ tail] ++ rs)).

Definition do_Exec (node body : ast.node) (globals locals : option ast.node)
  : M string :=
  let* head := self_leading_string node in
  let* tail := self_trailing_comment node in
  let* b := visit body in
  let* a1 := match globals with
             | Some x => let* v := visit x in ret [v]
             | None => ret []
             end in
  let* a2 := match locals with
             | Some x => let* v := visit x in ret [v]
             | None => ret []
             end in
  statement head
    (match (a1 ++ a2)%list with
     | _ :: _ => "exec " +:+ b +:+ " in " +:+ Py.join "," (a1 ++ a2)%list
     | [] => "exec " +:+ b
     end) tail.

(** [if node.orelse: result.append(self.indent('else:\n'))] and the loop
    over [node.orelse], as in [do_For] and [do_If]. *)
Definition orelse_plain (orelse : list ast.node) : M (list string) :=
  match orelse with
  | _ :: _ =>
      let* e := indent ("else:" +:+ LF) in
      let* rs := visit_body visit orelse in
      ret (e :: rs)
  | [] => ret []
  end.

Definition do_For (node target iter : ast.node) (body orelse : list ast.node)
  : M string :=
  let* res := self_leading_lines node in
  let* tail := self_trailing_comment node in
  let* t := visit target in
  let* it := visit iter in
  let* line := indent ("for " +:+ t +:+ " in " +:+ it +:+ ":" +:+ tail) in
  let* rs := visit_body visit body in
  let* es := orelse_plain orelse in
  ret (Py.join0 (res ++ [line] ++ rs ++ es)).

Definition do_Global (node : ast.node) (names : list string) : M string :=
  let* head := self_leading_lines node in
  let* tail := self_trailing_comment node in
  statement_list_head head ("global " +:+ Py.join "," names) tail.

Definition do_If (node test : ast.node) (body orelse : list ast.node)
  : M string :=
  let* res := self_leading_lines node in
  let* tail := self_trailing_comment node in
  let* t := visit test in
  let* line := indent ("if " +:+ t +:+ ":" +:+ tail) in
  let* rs := visit_body visit body in
  let* es := orelse_plain orelse in
  ret (Py.join0 (res ++ [line] ++ rs ++ es)).

(** [get_import_names] and the loop over its pairs. *)
Definition import_names (names : list (string * option string))
  : list string :=
  map (fun p =>
         match snd p with
         | Some asname =>
             if Py.truthy asname then fst p +:+ " as " +:+ asname else fst p
         | None => fst p
         end) names.

Definition do_Import (node : ast.node) (names : list (string * option string))
  : M string :=
  let* head := self_leading_string node in
  let* tail := self_trailing_comment node in
  statement head ("pass # import " +:+ Py.join "," (import_names names)) tail.

Definition do_ImportFrom (node : ast.node) (module : option string)
    (names : list (string * option string)) : M string :=
  let* head := self_leading_string node in
  let* tail := self_trailing_comment node in
  statement head
    ("pass # from " +:+ default "None" module +:+ " import "
     +:+ Py.join "," (import_names names)) tail.

Definition do_Pass (node : ast.node) : M string :=
  let* head := self_leading_string node in
  let* tail := self_trailing_comment node in
  statement head "pass" tail.

(** [node.nl == 'False'] compares a [bool] with a string: it never holds. *)
Definition do_Print (node : ast.node) (values : list ast.node)
    (dest : option ast.node) (nl : option bool) : M string :=
  let* head := self_leading_string node in
  let* tail := self_trailing_comment node in
  let* vals := mapM visit values in
  let* dv := match dest with
             | Some x => let* v := visit x in ret ["dest=" +:+ v]
             | None => ret []
             end in
  statement head ("print(" +:+ Py.join "," (vals ++ dv)%list +:+ ")") tail.

Definition visit_present (x : option ast.node) : M (list string) :=
  match x with
  | Some n => let* v := visit n in ret [v]
  | None => ret []
  end.

Definition do_Raise (node : ast.node) (type inst tback : option ast.node)
  : M string :=
  let* head := self_leading_string node in
  let* tail := self_trailing_comment node in
  let* a1 := visit_present type in
  let* a2 := visit_present inst in
  let* a3 := visit_present tback in
  statement head
    (match (a1 ++ a2 ++ a3)%list with
     | _ :: _ => "raise " +:+ Py.join ", " (a1 ++ a2 ++ a3)%list
     | [] => "raise"
     end) tail.

Definition do_Return (node : ast.node) (value : option ast.node) : M string :=
  let* head := self_leading_string node in
  let* tail := self_trailing_comment node in
  let* x := match value with
            | Some v => let* v' := visit v in ret ("return " +:+ Py.strip v')
            | None => ret "return"
            end in
  statement head x tail.

(** A clause of [do_Try] and [do_TryExcept] whose trailing comment is asked
    of the statement list: [keyword] is ['else:'] or ['finally:']. *)
Definition clause_list_tail (keyword : string) (stmts : list ast.node)
  : M (list string) :=
  match stmts with
  | _ :: _ =>
      let* tail := self_trailing_comment_list in
      let* e := indent (keyword +:+ tail) in
      let* rs := visit_body visit stmts in
      ret (e :: rs)
  | [] => ret []
  end.

Definition do_Try (node : ast.node)
    (body handlers orelse finalbody : list ast.node) : M string :=
  let* res := self_leading_lines node in
  let* tail := self_trailing_comment node in
  let* line := indent ("try" +:+ tail) in
  let* rs := visit_body visit body in
  let* hs := mapM visit handlers in
  let* es := clause_list_tail "else:" orelse in
  let* fs := clause_list_tail "finally:" finalbody in
  ret (Py.join0 (res ++ [line] ++ rs ++ hs ++ es ++ fs)).

Definition do_TryExcept (node : ast.node)
    (body handlers orelse : list ast.node) : M string :=
  let* res := self_leading_lines node in
  let* tail := self_trailing_comment node in
  let* line := indent ("try:" +:+ tail) in
  let* rs := visit_body visit body in
  let* hs := mapM visit handlers in
  let* es := clause_list_tail "else:" orelse in
  ret (Py.join0 (res ++ [line] ++ rs ++ hs ++ es)).

Definition do_TryFinally (node : ast.node) (body finalbody : list ast.node)
  : M string :=
  let* res := self_leading_lines node in
  let* tail := self_trailing_comment node in
  let* line := indent ("try:" +:+ tail) in
  let* rs := visit_body visit body in
  let* f := indent ("finally:" +:+ LF) in
  let* fs := visit_body visit finalbody in
  ret (Py.join0 (res ++ [line] ++ rs ++ [f] ++ fs)).

Definition do_While (node test : ast.node) (body orelse : list ast.node)
  : M string :=
  let* res := self_leading_lines node in
  let* tail := self_trailing_comment node in
  let* t := visit test in
  let* line := indent ("while " +:+ t +:+ ":" +:+ tail) in
  let* rs := visit_body visit body in
  let* es := match orelse with
             | _ :: _ =>
                 let* tail' := self_trailing_comment node in
                 let* e := indent ("else:" +:+ tail') in
                 let* rs' := visit_body visit orelse in
                 ret (e :: rs')
             | [] => ret []
             end in
  ret (Py.join0 (res ++ [line] ++ rs ++ es)).

(** No [ast] node has an attribute [context_expression], so that branch of
    [do_With] is never taken.  Iterating over [node.optional_vars], a node
    or [None], raises the [TypeError] that the rule catches. *)
Definition do_With (node : ast.node) (optional_vars : option (option ast.node))
    (body : list ast.node) : M string :=
  let* res := self_leading_lines node in
  let* tail := self_trailing_comment node in
  let* w := indent "with " in
  let* vars_list := match optional_vars with
                    | Some v => let* x := visit_or_none visit v in ret [x]
                    | None => ret []
                    end in
  let* rs := visit_body visit body in
  ret (Py.join0 (res ++ [w] ++ [Py.join "," vars_list] ++ [":" +:+ tail]
                 ++ rs ++ [LF])).

Definition do_Yield (node : ast.node) (value : option ast.node) : M string :=
  let* head := self_leading_string node in
  let* tail := self_trailing_comment node in
  let* x := match value with
            | Some v => let* v' := visit v in ret ("yield " +:+ v')
            | None => ret "yield"
            end in
  statement head x tail.

End Rules.

(** [visit]: the rule [do_<class name>] of the node; a class without a rule
    raises [AttributeError].  The fields of the tree are typed, so the
    branch of [visit] for a list or tuple is never entered; its branch for
    [None] is [visit_or_none]. *)
Fixpoint visit (node : ast.node) : M string :=
  match node with
  | ast.Other _ kind => raise (AttributeError ("do_" +:+ kind))
  | ast.ClassDef _ name bases body => do_ClassDef visit node name bases body
  | ast.FunctionDef _ name args body decorator_list =>
      do_FunctionDef visit node name args body decorator_list
  | ast.Interactive _ body => do_Interactive visit body
  | ast.Module _ body => do_Module visit body
  | ast.Lambda _ args body => do_Lambda visit args body
  | ast.Expr _ value => do_Expr visit node value
  | ast.Expression _ body => do_Expression visit body
  | ast.GeneratorExp _ elt generators => do_GeneratorExp visit elt generators
  | ast.arguments _ args vararg kwarg defaults =>
      do_arguments visit args vararg kwarg defaults
  | ast.arg _ a => do_arg a
  | ast.Attribute _ value attr => do_Attribute visit value attr
  | ast.Bytes _ x => do_Bytes x
  | ast.Call _ func args keywords starargs kwargs =>
      do_Call visit func args keywords starargs kwargs
  | ast.keyword _ a value => do_keyword visit a value
  | ast.comprehension _ target iter ifs => do_comprehension visit target iter ifs
  | ast.Dict _ keys values => do_Dict visit keys values
  | ast.Ellipsis _ => do_Ellipsis
  | ast.ExtSlice _ dims => do_ExtSlice visit dims
  | ast.Index _ value => do_Index visit value
  | ast.List _ elts => do_List visit elts
  | ast.ListComp _ elt generators => do_ListComp visit elt generators
  | ast.Name _ id => do_Name id
  | ast.NameConstant _ value => do_NameConstant value
  | ast.Num _ n => do_Num n
  | ast.Repr _ value => do_Repr visit value
  | ast.Slice _ lower upper step => do_Slice visit lower upper step
  | ast.Str _ x => do_Str node x
  | ast.Subscript _ value slice => do_Subscript visit value slice
  | ast.Tuple _ elts => do_Tuple visit elts
  | ast.BinOp _ lhs op rhs => do_BinOp visit lhs op rhs
  | ast.BoolOp _ op values => do_BoolOp visit op values
  | ast.Compare _ lhs ops comparators => do_Compare visit lhs ops comparators
  | ast.IfExp _ body test orelse => do_IfExp visit body test orelse
  | ast.UnaryOp _ op operand => do_UnaryOp visit op operand
  | ast.Assert _ test msg => do_Assert visit node test msg
  | ast.Assign _ targets value => do_Assign visit node targets value
  | ast.AugAssign _ target op value => do_AugAssign visit node target op value
  | ast.Break _ => do_Break node
  | ast.Continue _ => do_Continue node
  | ast.Delete _ targets => do_Delete visit node targets
  | ast.ExceptHandler _ type name body =>
      do_ExceptHandler visit node type name body
  | ast.Exec _ body globals locals => do_Exec visit node body globals locals
  | ast.For _ target iter body orelse => do_For visit node target iter body orelse
  | ast.Global _ names => do_Global node names
  | ast.If _ test body orelse => do_If visit node test body orelse
  | ast.Import _ names => do_Import node names
  | ast.ImportFrom _ module names => do_ImportFrom node module names
  | ast.Pass _ => do_Pass node
  | ast.Print _ values dest nl => do_Print visit node values dest nl
  | ast.Raise _ type inst tback => do_Raise visit node type inst tback
  | ast.Return _ value => do_Return visit node value
  | ast.Try _ body handlers orelse finalbody =>
      do_Try visit node body handlers orelse finalbody
  | ast.TryExcept _ body handlers orelse =>
      do_TryExcept visit node body handlers orelse
  | ast.TryFinally _ body finalbody => do_TryFinally visit node body finalbody
  | ast.While _ test body orelse => do_While visit node test body orelse
  | ast.With _ optional_vars body => do_With visit node optional_vars body
  | ast.Yield _ value => do_Yield visit node value
  end.

(** [format(node, s, tokens)], on a traverser fresh from [__init__]. *)
Definition format (node : ast.node) (src : string) (tokens : list token)
  : result (string * state) :=
  match TokenSync_init src tokens with
  | Raised e => Raised e
  | Ok ts => visit node (mkState 0 [] ts [])
  end.


(** ** Sample inputs

    The token numbers of Python 2.7 ([token.py] and [tokenize.py]), and the
    traverser state on an empty source. *)

Definition py27_tok_name (t : Z) : string :=
  if t =? 0 then "ENDMARKER" else if t =? 1 then "NAME"
  else if t =? 2 then "NUMBER" else if t =? 3 then "STRING"
  else if t =? 4 then "NEWLINE" else if t =? 5 then "INDENT"
  else if t =? 6 then "DEDENT" else if t =? 51 then "OP"
  else if t =? 53 then "COMMENT" else if t =? 54 then "NL"
  else "ERRORTOKEN".

Definition py27_NEWLINE : Z := 4.

Definition py27_nl_token : token := Token 4 LF (0, 0) (0, 0) LF.

(** [TokenSync('', [])] *)
Definition empty_sync : TokenSync :=
  mkTokenSync EmptyString 1 [] py27_nl_token [[]] [] [[]] [None].

Definition empty_state : state := mkState 0 [] empty_sync [].

(** The source

      # top

      x = 'a'  # note

    its tokens, and the [TokenSync] object built from them. *)
Definition note_line : string := "x = 'a'  # note" +:+ LF.

Definition note_src : string := "# top" +:+ LF +:+ LF +:+ note_line.

Definition tok_top : token := Token 53 "# top" (1, 0) (1, 5) ("# top" +:+ LF).
Definition tok_top_nl : token := Token 54 LF (1, 5) (1, 6) ("# top" +:+ LF).
Definition tok_blank : token := Token 54 LF (2, 0) (2, 1) LF.
Definition tok_x : token := Token 1 "x" (3, 0) (3, 1) note_line.
Definition tok_eq : token := Token 51 "=" (3, 2) (3, 3) note_line.
Definition tok_a : token := Token 3 "'a'" (3, 4) (3, 7) note_line.
Definition tok_note : token := Token 53 "# note" (3, 9) (3, 15) note_line.
Definition tok_newline : token := Token 4 LF (3, 15) (3, 16) note_line.
Definition tok_end : token := Token 0 EmptyString (4, 0) (4, 0) EmptyString.

Definition note_tokens : list token :=
  [tok_top; tok_top_nl; tok_blank; tok_x; tok_eq; tok_a; tok_note;
   tok_newline; tok_end].

Definition note_sync : TokenSync :=
  mkTokenSync note_src 0 ["# top"; EmptyString; "x = 'a'  # note"] py27_nl_token
    [[tok_top; tok_top_nl]; [tok_blank];
     [tok_x; tok_eq; tok_a; tok_note; tok_newline]; [tok_end]]
    [1]
    [[]; []; [tok_a]; []]
    [Some tok_top; Some py27_nl_token; None; None].

Definition note_state : state := mkState 0 [] note_sync [].








(** ** Vocabulary of the properties *)

(** A comment token that is not a full-line comment. *)
Definition trailing_candidate (tk : token) : bool :=
  String.eqb (token_kind tk) "comment" && negb (is_line_comment tk).

(** The state [st] with [ts] as its [TokenSync] object and [evs] written to
    standard output; [level] and [class_stack] are those of [st]. *)
Definition with_sync (ts : TokenSync) (evs : list event) (st : state)
  : state :=
  mkState (level st) (class_stack st) ts (stdout st ++ evs).

(** The token [tk] belongs to the bucket at position [k] of [len] buckets. *)
Definition in_bucket (len k : nat) (tk : token) : bool :=
  bool_decide (Py.index len (token_line tk) = Some k).

(** A token of kind ['string']. *)
Definition is_string_token (tk : token) : bool :=
  String.eqb (token_kind tk) "string".

(** The text of one entry of [ignored_lines]: the physical line of the
    entry's token (the fifth field of the tokenizer's 5-tuple) without its
    trailing white space, followed by a newline; nothing when the index
    holds no ignored line. *)
Definition ignored_text (entry : option token) : list string :=
  match entry with
  | Some t => [Py.rstrip (t5 t) +:+ LF]
  | None => []
  end.

(** The ignored lines with an index below [n], each once, in order. *)
Definition ignored_before (ignored : list (option token)) (n : Z)
  : list string :=
  flat_map ignored_text (take (Z.to_nat n) ignored).

(** [leading_lines] called on the nodes of a list, in order. *)
Fixpoint leading_lines_seq (nodes : list ast.node) (self : TokenSync)
  : result (list (list string) * TokenSync) :=
  match nodes with
  | [] => Ok ([], self)
  | node :: rest =>
      match leading_lines node self with
      | Raised e => Raised e
      | Ok (l, self') =>
          match leading_lines_seq rest self' with
          | Raised e => Raised e
          | Ok (ls, self'') => Ok (l :: ls, self'')
          end
      end
  end.

(** A computation that, when it returns, leaves [level] and [class_stack]
    as it found them. *)
Definition frame {A} (m : M A) : Prop :=
  forall st a st',
    m st = Ok (a, st') ->
    level st' = level st /\ class_stack st' = class_stack st.

(** The text [op_name] gives for an operator node. *)
Definition op_text (node : ast.node) : string :=
  default ("<" +:+ ast.class_name node +:+ ">") (d !! ast.class_name node).

(** The attribute access [root.a1.a2...an]; an entry is the line number
    and the [attr] field of one [Attribute] node. *)
Definition attribute_chain (root : ast.node)
    (attrs : list (option Z * string)) : ast.node :=
  fold_left (fun value a => ast.Attribute (fst a) value (snd a)) attrs root.

(** A text without a comma and without blanks, as an identifier is. *)
Fixpoint plain (x : string) : bool :=
  match x with
  | EmptyString => true
  | String c x' => negb (Ascii.eqb c ",") && negb (Py.isspace c) && plain x'
  end.


(** The parameters that [do_FunctionDef] keeps, from their rendered
    texts: the first is dropped when the class stack is not empty and its
    text is the sigil. *)
Definition kept_params (cs : list string) (rendered : list string)
  : list string :=
  match cs, rendered with
  | _ :: _, first :: rest => if String.eqb first "@" then rest else rendered
  | _, _ => rendered
  end.

(** The bucket of [tk] exists when the source has [n] lines: the subscript
    [token_line tk] is valid for a list of [n + 1] buckets. *)
Definition line_in_range (n : nat) (tk : token) : Prop :=
  - (Z.of_nat n + 1) <= token_line tk <= Z.of_nat n.

(** A bucket that is exactly one token of kind ['nl']. *)
Definition is_blank_bucket (bucket : list token) : bool :=
  match bucket with
  | [z] => String.eqb (token_kind z) "nl"
  | _ => false
  end.

(** The entry of [ignored_lines] for a bucket: its first full-line comment,
    else the newline token [nl] when the bucket is blank, else [None]. *)
Definition ignored_entry (nl : token) (bucket : list token) : option token :=
  match find is_line_comment bucket with
  | Some z => Some z
  | None => if is_blank_bucket bucket then Some nl else None
  end.

(** The rendered parameters of [do_arguments], from the texts [args] of
    the parameters and [defaults] of the default values: the defaults go to
    the last parameters, one each. *)
Definition paired_with_defaults (args defaults : list string) : list string :=
  let n := length args in
  let k := length defaults in
  take (n - k) args
  ++ zip_with (fun a dv => a +:+ "=" +:+ dv)
       (drop (n - k) args) (drop (k - n) defaults).

(** The variadic parameter of a [vararg] or [kwarg] field, behind its
    marker: none when the field is absent or holds an empty identifier; an
    [ast.arg] node always gives one, whatever its name. *)
Definition starred (marker : string) (name : option ast.star_name)
  : list string :=
  match name with
  | None => []
  | Some (ast.Identifier EmptyString) => []
  | Some (ast.Identifier n) => [marker +:+ n]
  | Some (ast.ArgNode _ a) => [marker +:+ a]
  end.

(** The nested bodies of a compound construct: the statement lists that
    its rule renders as blocks, in the order of the rule. *)
Definition nested_bodies (node : ast.node) : list (list ast.node) :=
  match node with
  | ast.ClassDef _ _ _ body => [body]
  | ast.FunctionDef _ _ _ body _ => [body]
  | ast.ExceptHandler _ _ _ body => [body]
  | ast.For _ _ _ body orelse => [body; orelse]
  | ast.If _ _ body orelse => [body; orelse]
  | ast.While _ _ body orelse => [body; orelse]
  | ast.Try _ body _ orelse finalbody => [body; orelse; finalbody]
  | ast.TryExcept _ body _ orelse => [body; orelse]
  | ast.TryFinally _ body finalbody => [body; finalbody]
  | ast.With _ _ body => [body]
  | _ => []
  end.

(** [m] run with [level] at [lvl + 1]; [level] is [lvl] again when [m]
    has returned. *)
Definition one_deeper {A} (lvl : Z) (m : M A) : M A :=
  fun st =>
    match m (mkState (lvl + 1) (class_stack st) (sync st) (stdout st)) with
    | Ok (r, st1) =>
        Ok (r, mkState lvl (class_stack st1) (sync st1) (stdout st1))
    | Raised e => Raised e
    end.

(** The text [out] of a construct that was entered with [level] at [lvl]
    holds, in place, the texts [rs] of the statements of [body], rendered
    one after the other, each with [level] at [lvl + 1]; [level] is [lvl]
    before the first and after the last. *)
Definition rendered_one_deeper (lvl : Z) (out : string)
    (body : list ast.node) : Prop :=
  exists pre rs post st1 st2,
    mapM (fun z => one_deeper lvl (visit z)) body st1 = Ok (rs, st2) /\
    level st1 = lvl /\ level st2 = lvl /\
    out = Py.join0 (pre ++ rs ++ post).

(** The statements that are rendered on one line. *)
Definition simple_statement (node : ast.node) : bool :=
  match node with
  | ast.Expr _ _ | ast.Assert _ _ _ | ast.Assign _ _ _
  | ast.AugAssign _ _ _ _ | ast.Break _ | ast.Delete _ _
  | ast.Exec _ _ _ _ | ast.Import _ _ | ast.ImportFrom _ _ _ | ast.Pass _
  | ast.Print _ _ _ _ | ast.Raise _ _ _ _ | ast.Return _ _
  | ast.Yield _ _ => true
  | _ => false
  end.

(** What a rendering may do to the [TokenSync] object: move the watermark
    up and take tokens from the front of the string queues.  The source,
    the buckets and the ignored lines stay as they are. *)
Definition sync_advances (a b : TokenSync) : Prop :=
  s b = s a /\ lines b = lines a /\ nl_token b = nl_token a /\
  line_tokens b = line_tokens a /\ blank_lines b = blank_lines a /\
  ignored_lines b = ignored_lines a /\
  first_leading_line a <= first_leading_line b /\
  length (string_tokens b) = length (string_tokens a) /\
  forall k qa,
    string_tokens a !! k = Some qa ->
    exists qb, string_tokens b !! k = Some qb /\ suffix qb qa.

(** The same for the whole state: standard output only grows. *)
Definition advances (st st' : state) : Prop :=
  sync_advances (sync st) (sync st') /\ prefix (stdout st) (stdout st').

Definition monotone {A} (m : M A) : Prop :=
  forall st a st', m st = Ok (a, st') -> advances st st'.

(** ** Properties *)

(** *** Strings and subscripts *)

Lemma startswith_hash_cons (c : ascii) (x : string) :
  Py.startswith "#" (String c x) = Ascii.eqb "#" c.
Proof.
  unfold Py.startswith. cbn [String.prefix].
  destruct (ascii_dec "#" c) as [<- | Hne].
  - rewrite Ascii.eqb_refl. now destruct x.
  - apply Ascii.eqb_neq in Hne. now rewrite Hne.
Qed.

Lemma rstrip_cons_nonspace (c : ascii) (x : string) :
  Py.isspace c = false -> exists r, Py.rstrip (String c x) = String c r.
Proof.
  intros Hc. simpl. destruct (Py.rstrip x); rewrite ?Hc; eauto.
Qed.

(** Stripping on the right does not change what the text starts with once
    the leading blanks are gone. *)
Lemma startswith_hash_lstrip_rstrip (x : string) :
  Py.startswith "#" (Py.lstrip (Py.rstrip x))
  = Py.startswith "#" (Py.lstrip x).
Proof.
  induction x as [| c x IH]; [reflexivity |].
  destruct (Py.isspace c) eqn:Hc.
  - simpl Py.lstrip at 2. rewrite Hc, <- IH. simpl Py.rstrip.
    destruct (Py.rstrip x) eqn:Hr.
    + rewrite Hc. reflexivity.
    + simpl. rewrite Hc. reflexivity.
  - destruct (rstrip_cons_nonspace c x Hc) as [r ->].
    simpl. rewrite Hc. now rewrite !startswith_hash_cons.
Qed.

Lemma startswith_hash_strip_rstrip (x : string) :
  Py.startswith "#" (Py.strip (Py.rstrip x))
  = Py.startswith "#" (Py.lstrip x).
Proof.
  unfold Py.strip. now rewrite !startswith_hash_lstrip_rstrip.
Qed.

Lemma index_Some_lt (len : nat) (i : Z) (k : nat) :
  Py.index len i = Some k -> (k < len)%nat.
Proof.
  unfold Py.index. intros H.
  destruct ((0 <=? i) && (i <? Z.of_nat len)) eqn:H1.
  - injection H as <-. lia.
  - destruct ((- Z.of_nat len <=? i) && (i <? 0)) eqn:H2; [| discriminate].
    injection H as <-. lia.
Qed.

Lemma index_nonneg (len : nat) (i : Z) :
  0 <= i < Z.of_nat len -> Py.index len i = Some (Z.to_nat i).
Proof.
  intros H. unfold Py.index.
  destruct ((0 <=? i) && (i <? Z.of_nat len)) eqn:H1; [reflexivity | lia].
Qed.

Lemma getitem_nonneg {A} (l : list A) (i : Z) :
  0 <= i < Z.of_nat (length l) -> Py.getitem l i = l !! Z.to_nat i.
Proof.
  intros H. unfold Py.getitem. now rewrite index_nonneg.
Qed.

(** *** Operators *)

Lemma op_table_spellings_nonempty (kind name : string) :
  d !! kind = Some name -> Py.truthy name = true.
Proof.
  intros H. apply elem_of_list_to_map_2 in H.
  apply list_elem_of_In in H. simpl in H.
  repeat (destruct H as [H | H]; [injection H as <- <-; reflexivity |]).
  contradiction.
Qed.

(** A kind of the table renders with its declared spelling, in both
    modes. *)
Lemma op_name_in_table (node : ast.node) (strict : bool) (name : string) :
  d !! ast.class_name node = Some name -> op_name node strict = Ok name.
Proof.
  intros H. unfold op_name. rewrite H. simpl.
  rewrite (op_table_spellings_nonempty _ _ H). now destruct strict.
Qed.

(** A kind missing from the table renders as its bracketed name when
    [strict] is false. *)
Lemma op_name_missing_not_strict (node : ast.node) :
  d !! ast.class_name node = None ->
  op_name node false = Ok ("<" +:+ ast.class_name node +:+ ">").
Proof.
  intros H. unfold op_name. now rewrite H.
Qed.

(** [op_name] never raises: the default of [d.get] is not empty, so the
    assertion of the strict mode always passes. *)
Lemma op_name_total (node : ast.node) (strict : bool) :
  op_name node strict
  = Ok (default ("<" +:+ ast.class_name node +:+ ">")
          (d !! ast.class_name node)).
Proof.
  unfold op_name. destruct (d !! ast.class_name node) as [name |] eqn:H.
  - simpl. rewrite (op_table_spellings_nonempty _ _ H). now destruct strict.
  - simpl. now destruct strict.
Qed.

(** C1. In strict mode, an operator kind missing from the table is not
    rejected: for the matrix-multiplication operator [MatMult], which the
    table lacks, [op_name] returns the bracketed placeholder instead of
    raising. *)
Theorem op_name_strict_missing_kind_returns_placeholder :
  d !! "MatMult" = None /\
  op_name (ast.Other None "MatMult") true = Ok "<MatMult>".
Proof.
  split; reflexivity.
Qed.

(** *** Leading lines of a node without a line number *)

(** C10. For a node without a line number, [leading_lines] returns the
    empty list and leaves the [TokenSync] object, hence the watermark
    [first_leading_line], as it was; [leading_string] returns the empty
    string. *)
Theorem leading_lines_without_lineno (node : ast.node) (self : TokenSync) :
  ast.lineno node = None ->
  leading_lines node self = Ok ([], self) /\
  leading_string node self = Ok (EmptyString, self).
Proof.
  intros H. unfold leading_string, leading_lines. rewrite H. split; reflexivity.
Qed.

(** *** Trailing comments *)

Lemma trailing_comment_scan_find (tokens : list token) :
  trailing_comment_scan tokens
  = match find trailing_candidate tokens with
    | Some tk => " " +:+ Py.rstrip (token_val tk) +:+ LF
    | None => LF
    end.
Proof.
  induction tokens as [| tk rest IH]; [reflexivity |].
  cbn [trailing_comment_scan find].
  replace (trailing_candidate tk)
    with (String.eqb (token_kind tk) "comment"
          && negb (Py.startswith "#"
                     (Py.strip (Py.rstrip (token_raw_val tk))))).
  - destruct (_ && _); [reflexivity | exact IH].
  - unfold trailing_candidate, is_line_comment, token_kind, token_raw_val,
      toUnicode.
    rewrite startswith_hash_strip_rstrip.
    now destruct (String.eqb _ "comment").
Qed.

(** C8. For a node on line [n], [trailing_comment] returns a space, the text
    of the first comment token of the line's bucket that is not a full-line
    comment (without its trailing blanks) and a newline; when the bucket has
    no such token it returns a newline.  The result ends with a newline. *)
Theorem trailing_comment_spec (node : ast.node) (self : TokenSync) (n : Z)
    (tokens : list token) :
  ast.lineno node = Some n ->
  Py.getitem (line_tokens self) (n - 1) = Some tokens ->
  let text := match find trailing_candidate tokens with
              | Some tk => " " +:+ Py.rstrip (token_val tk) +:+ LF
              | None => LF
              end in
  trailing_comment node self = Ok (text, []) /\
  exists before, text = before +:+ LF.
Proof.
  intros Hn Hb text. split.
  - unfold trailing_comment, trailing_comment_at. rewrite Hn, Hb.
    now rewrite trailing_comment_scan_find.
  - subst text. destruct (find trailing_candidate tokens) as [tk |].
    + exists (" " +:+ Py.rstrip (token_val tk)).
      cbn [String.append]. f_equal.
    + exists EmptyString. reflexivity.
Qed.

(** *** The string queues *)

(** C5. For a string literal on line [n]: when the queue of the line is
    empty, rendering returns the [s] field of the node, writes a trace and
    leaves the queues as they were; otherwise it returns the text of the
    token at the front of the queue and removes exactly that token. *)
Theorem Str_underflow_and_pop (st : state) (n : Z) (x : string)
    (queue : list token) :
  Py.getitem (string_tokens (sync st)) (n - 1) = Some queue ->
  match queue with
  | [] =>
      visit (ast.Str (Some n) x) st
      = Ok (x, with_sync (sync st) [trace_underflow n x] st)
  | tk :: queue' =>
      exists queues',
        Py.setitem (string_tokens (sync st)) (n - 1) queue' = Some queues' /\
        Py.getitem queues' (n - 1) = Some queue' /\
        visit (ast.Str (Some n) x) st
        = Ok (token_val tk,
              with_sync (set_string_tokens queues' (sync st)) [] st)
  end.
Proof.
  intros H. cbn [visit]. unfold do_Str. cbn [ast.lineno].
  unfold self_sync_string, sync_string. rewrite H.
  destruct queue as [| tk queue']; [reflexivity |].
  unfold Py.getitem, Py.setitem in *.
  destruct (Py.index _ (n - 1)) as [k |] eqn:Hk; [| discriminate].
  eexists. split; [reflexivity |]. split; [| reflexivity].
  rewrite length_insert, Hk.
  apply list_lookup_insert_eq. now apply index_Some_lt in Hk.
Qed.

(** *** Line buckets *)

Lemma make_line_tokens_loop_spec (tokens : list token) :
  forall res res',
    make_line_tokens_loop tokens res = Ok res' ->
    length res' = length res /\
    forall k b,
      res !! k = Some b ->
      res' !! k = Some (b ++ List.filter (in_bucket (length res) k) tokens).
Proof.
  induction tokens as [| tk tokens IH]; intros res res' H.
  - injection H as <-. split; [reflexivity |].
    intros k b Hk. now rewrite app_nil_r.
  - cbn [make_line_tokens_loop] in H. unfold Py.getitem, Py.setitem in H.
    destruct (Py.index (length res) (token_line tk)) as [j |] eqn:Hj;
      [| discriminate].
    destruct (res !! j) as [bucket |] eqn:Hb; [| discriminate].
    apply IH in H as [Hlen Hall]. rewrite length_insert in Hlen, Hall.
    split; [exact Hlen |].
    intros k b Hk. cbn [List.filter]. unfold in_bucket at 1. rewrite Hj.
    destruct (decide (j = k)) as [-> | Hne].
    + rewrite bool_decide_eq_true_2 by reflexivity.
      assert (b = bucket) as -> by congruence.
      rewrite (Hall k (bucket ++ [tk])).
      * now rewrite <- app_assoc.
      * apply list_lookup_insert_eq. now apply lookup_lt_Some in Hb.
    + rewrite bool_decide_eq_false_2 by congruence.
      apply Hall. now rewrite list_lookup_insert_ne.
Qed.

(** Each bucket holds the tokens assigned to it, in the order of the token
    stream; there is one bucket more than there are lines. *)
Lemma make_line_tokens_spec (lns : list string) (tokens : list token)
    (lt : list (list token)) :
  make_line_tokens lns tokens = Ok lt ->
  length lt = (length lns + 1)%nat /\
  forall k, (k < length lt)%nat ->
            lt !! k = Some (List.filter (in_bucket (length lt) k) tokens).
Proof.
  unfold make_line_tokens. intros H.
  destruct (make_line_tokens_loop tokens _) as [res |] eqn:Hloop;
    [| discriminate].
  destruct (Nat.eqb_spec (length lns + 1) (length res)) as [Hlen |];
    [| discriminate].
  injection H as <-.
  apply make_line_tokens_loop_spec in Hloop as [Hl Hall].
  rewrite length_replicate in Hl, Hall. split; [lia |].
  intros k Hk. rewrite Hl.
  apply (Hall k []). apply lookup_replicate_2. lia.
Qed.

Lemma TokenSync_init_inv (src : string) (tokens : list token)
    (ts : TokenSync) :
  TokenSync_init src tokens = Ok ts ->
  lines ts = map Py.rstrip (splitLines src) /\
  make_line_tokens (lines ts) tokens = Ok (line_tokens ts) /\
  string_tokens ts = map (List.filter is_string_token) (line_tokens ts) /\
  ignored_lines ts
  = make_ignored_lines_from make_nl_token (make_blank_lines (line_tokens ts))
      0 (line_tokens ts) /\
  first_leading_line ts = first_ignored_from 0 (ignored_lines ts).
Proof.
  unfold TokenSync_init. intros H.
  destruct (make_line_tokens _ tokens) as [lt |] eqn:Hlt; [| discriminate].
  unfold make_string_tokens, make_ignored_lines in H.
  destruct (Nat.eqb _ _); [| discriminate].
  destruct (Nat.eqb _ _); [| discriminate].
  injection H as <-. cbn. rewrite Hlt. repeat split; reflexivity.
Qed.


(** *** Leading lines and the watermark *)

Lemma leading_lines_loop_spec (ignored : list (option token)) (k : nat) :
  forall i acc,
    0 <= i -> i + Z.of_nat k <= Z.of_nat (length ignored) ->
    exists l,
      leading_lines_loop ignored k i acc = Ok (acc ++ l, i + Z.of_nat k) /\
      ignored_before ignored i ++ l = ignored_before ignored (i + Z.of_nat k).
Proof.
  induction k as [| k IH]; intros i acc Hi Hlen.
  - exists []. cbn [leading_lines_loop].
    rewrite !app_nil_r, Z.add_0_r. split; reflexivity.
  - cbn [leading_lines_loop]. rewrite getitem_nonneg by lia.
    destruct (lookup_lt_is_Some_2 ignored (Z.to_nat i)) as [entry Hentry];
      [lia |].
    rewrite Hentry.
    destruct (IH (i + 1) (acc ++ ignored_text entry)) as (l & Hl & Hcat);
      [lia | lia |].
    exists (ignored_text entry ++ l). split.
    + replace (i + Z.of_nat (S k)) with (i + 1 + Z.of_nat k) by lia.
      rewrite app_assoc, <- Hl.
      destruct entry; cbn [ignored_text]; now rewrite ?app_nil_r.
    + replace (i + Z.of_nat (S k)) with (i + 1 + Z.of_nat k) by lia.
      rewrite <- Hcat. unfold ignored_before.
      replace (Z.to_nat (i + 1)) with (S (Z.to_nat i)) by lia.
      rewrite (take_S_r _ _ _ Hentry), flat_map_app. cbn [flat_map].
      now rewrite app_nil_r, app_assoc.
Qed.

Lemma leading_lines_loop_watermark (ignored : list (option token)) (k : nat) :
  forall i acc l i',
    leading_lines_loop ignored k i acc = Ok (l, i') -> i' = i + Z.of_nat k.
Proof.
  induction k as [| k IH]; intros i acc l i' H; cbn [leading_lines_loop] in H.
  - injection H as _ <-. lia.
  - destruct (Py.getitem ignored i); [| discriminate].
    apply IH in H. lia.
Qed.

Lemma leading_lines_watermark (node : ast.node) (self self' : TokenSync)
    (l : list string) :
  leading_lines node self = Ok (l, self') ->
  first_leading_line self <= first_leading_line self'.
Proof.
  unfold leading_lines. destruct (ast.lineno node) as [n |].
  - destruct (leading_lines_loop _ _ _ _) as [[l0 i'] |] eqn:E;
      [| discriminate].
    intros H. injection H as _ <-. cbn.
    apply leading_lines_loop_watermark in E. lia.
  - intros H. injection H as _ <-. lia.
Qed.

(** One call: the ignored lines from the watermark up to the line of the
    node are returned, and the watermark moves up to that line. *)
Lemma leading_lines_step (node : ast.node) (self : TokenSync) (n : Z) :
  ast.lineno node = Some n ->
  0 <= first_leading_line self <= Z.of_nat (length (ignored_lines self)) ->
  n <= Z.of_nat (length (ignored_lines self)) ->
  exists l,
    leading_lines node self
    = Ok (l, set_first_leading_line (Z.max (first_leading_line self) n) self)
    /\ ignored_before (ignored_lines self) (first_leading_line self) ++ l
       = ignored_before (ignored_lines self)
           (Z.max (first_leading_line self) n).
Proof.
  intros Hn Hw Hlen. unfold leading_lines. rewrite Hn.
  set (w := first_leading_line self) in *.
  destruct (leading_lines_loop_spec (ignored_lines self)
              (Z.to_nat (n - w)) w []) as (l & Hl & Hcat); [lia | lia |].
  exists l. rewrite Hl. cbn [app].
  replace (w + Z.of_nat (Z.to_nat (n - w))) with (Z.max w n) in * by lia.
  split; [reflexivity | exact Hcat].
Qed.

Lemma first_ignored_from_spec (ignored : list (option token)) :
  forall i,
    i <= first_ignored_from i ignored <= i + Z.of_nat (length ignored) /\
    flat_map ignored_text
      (take (Z.to_nat (first_ignored_from i ignored - i)) ignored) = [].
Proof.
  induction ignored as [| entry rest IH]; intros i; cbn [first_ignored_from].
  - split; [cbn; lia |]. now rewrite take_nil.
  - destruct entry as [t |].
    + split; [cbn [length]; lia |]. now rewrite Z.sub_diag.
    + destruct (IH (i + 1)) as [Hb Hnil]. split; [cbn [length]; lia |].
      replace (Z.to_nat (first_ignored_from (i + 1) rest - i))
        with (S (Z.to_nat (first_ignored_from (i + 1) rest - (i + 1))))
        by lia.
      exact Hnil.
Qed.

Lemma ignored_before_nil_below (ignored : list (option token)) (a b : Z) :
  b <= a -> ignored_before ignored a = [] -> ignored_before ignored b = [].
Proof.
  unfold ignored_before. intros Hle Ha.
  assert (E : take (Z.to_nat a) ignored
              = take (Z.to_nat b) ignored
                ++ take (Z.to_nat a - Z.to_nat b) (drop (Z.to_nat b) ignored)).
  { rewrite take_take_drop. f_equal. lia. }
  rewrite E, flat_map_app in Ha. now apply app_eq_nil in Ha as [Ha _].
Qed.

Lemma leading_lines_seq_spec (nodes : list ast.node) :
  forall lns self,
    map ast.lineno nodes = map Some lns ->
    Forall (fun n => n <= Z.of_nat (length (ignored_lines self))) lns ->
    0 <= first_leading_line self <= Z.of_nat (length (ignored_lines self)) ->
    exists outs self',
      leading_lines_seq nodes self = Ok (outs, self') /\
      first_leading_line self'
      = fold_left Z.max lns (first_leading_line self) /\
      ignored_lines self' = ignored_lines self /\
      ignored_before (ignored_lines self) (first_leading_line self)
        ++ concat outs
      = ignored_before (ignored_lines self) (first_leading_line self').
Proof.
  induction nodes as [| node rest IH]; intros lns self Hmap Hall Hw.
  - destruct lns; [| discriminate]. exists [], self.
    cbn. now rewrite app_nil_r.
  - destruct lns as [| n lns]; [discriminate |].
    injection Hmap as Hn Hmap. apply Forall_cons in Hall as [Hle Hall].
    destruct (leading_lines_step node self n Hn Hw Hle) as (l & Hl & Hcat).
    set (self1 := set_first_leading_line
                    (Z.max (first_leading_line self) n) self) in *.
    destruct (IH lns self1 Hmap Hall) as (outs & self' & Hs & Hw' & Hig & Hc).
    { cbn. lia. }
    exists (l :: outs), self'. cbn [leading_lines_seq].
    rewrite Hl, Hs. repeat split.
    + exact Hw'.
    + exact Hig.
    + cbn [concat]. rewrite app_assoc, Hcat. exact Hc.
Qed.

Lemma fold_left_max_absorb (l : list Z) :
  forall m w, Forall (fun x => x <= m) l -> m <= w -> fold_left Z.max l w = w.
Proof.
  induction l as [| a l IH]; intros m w Hall Hm; [reflexivity |].
  apply Forall_cons in Hall as [Ha Hall]. cbn [fold_left].
  replace (Z.max w a) with w by lia. now apply (IH m).
Qed.

Lemma fold_left_max_last (l : list Z) :
  forall w m,
    Forall (fun x => x <= m) l -> In m l -> fold_left Z.max l w = Z.max w m.
Proof.
  induction l as [| a l IH]; intros w m Hall Hin; [contradiction |].
  apply Forall_cons in Hall as [Ha Hall]. cbn [fold_left].
  destruct Hin as [-> | Hin].
  - apply (fold_left_max_absorb l m); [exact Hall | lia].
  - rewrite (IH _ m Hall Hin). lia.
Qed.

Lemma sorted_last_is_max (l : list Z) (m : Z) :
  Sorted Z.le l -> last l = Some m ->
  Forall (fun x => x <= m) l /\ In m l.
Proof.
  intros Hs Hlast. split.
  - apply Sorted_StronglySorted in Hs; [| exact Z.le_trans].
    induction Hs as [| a l Hs IH Ha]; [constructor |].
    destruct l as [| b l].
    + injection Hlast as <-. repeat constructor. lia.
    + rewrite last_cons_cons in Hlast. specialize (IH Hlast).
      constructor; [| exact IH].
      apply Forall_cons in Ha as [Hab _].
      apply Forall_cons in IH as [Hbm _]. lia.
  - apply list_elem_of_In. now apply last_Some_elem_of.
Qed.

Lemma make_ignored_lines_from_length (nl : token) (blank : list Z)
    (lt : list (list token)) :
  forall i, length (make_ignored_lines_from nl blank i lt) = length lt.
Proof.
  induction lt as [| aList lt IH]; intros i; cbn; [reflexivity |].
  now rewrite IH.
Qed.

(** C3. On a freshly built [TokenSync], when [leading_lines] is called for
    nodes whose line numbers never decrease and stay within the source,
    every call succeeds and the concatenation of the results is the list of
    the ignored lines with an index below the line number of the last
    node, each once and in order, each as the physical line of its token
    without trailing white space and with a newline.  No call of
    [leading_lines] ever lowers the watermark [first_leading_line]. *)
Theorem leading_lines_cover_ignored_once (src : string)
    (tokens : list token) (ts : TokenSync) (nodes : list ast.node)
    (lns : list Z) (last_line : Z) :
  TokenSync_init src tokens = Ok ts ->
  map ast.lineno nodes = map Some lns ->
  Sorted Z.le lns ->
  last lns = Some last_line ->
  last_line <= Z.of_nat (length (lines ts)) + 1 ->
  (exists outs ts',
     leading_lines_seq nodes ts = Ok (outs, ts') /\
     concat outs = ignored_before (ignored_lines ts) last_line /\
     ignored_lines ts' = ignored_lines ts /\
     first_leading_line ts <= first_leading_line ts') /\
  (forall node self l self',
     leading_lines node self = Ok (l, self') ->
     first_leading_line self <= first_leading_line self').
Proof.
  intros Hinit Hmap Hsorted Hlast Hbound.
  split; [| intros node self l self'; apply leading_lines_watermark].
  destruct (TokenSync_init_inv _ _ _ Hinit) as (_ & Hlt & _ & Hig & Hfirst).
  apply make_line_tokens_spec in Hlt as [Hlen _].
  assert (Hlenig : length (ignored_lines ts) = (length (lines ts) + 1)%nat).
  { rewrite Hig, make_ignored_lines_from_length. exact Hlen. }
  destruct (first_ignored_from_spec (ignored_lines ts) 0) as [Hw0 Hnil].
  rewrite <- Hfirst, Z.sub_0_r in Hnil. rewrite <- Hfirst in Hw0.
  fold (ignored_before (ignored_lines ts) (first_leading_line ts)) in Hnil.
  destruct (sorted_last_is_max lns last_line Hsorted Hlast) as [Hmax Hin].
  destruct (leading_lines_seq_spec nodes lns ts Hmap)
    as (outs & ts' & Hs & Hw' & Hig' & Hcat).
  { eapply Forall_impl; [exact Hmax |]. cbn. intros x Hx. lia. }
  { lia. }
  exists outs, ts'. rewrite Hnil in Hcat. cbn [app] in Hcat.
  rewrite (fold_left_max_last lns _ last_line Hmax Hin) in Hw'.
  repeat split.
  - exact Hs.
  - rewrite Hcat, Hw'.
    destruct (Z.le_ge_cases (first_leading_line ts) last_line) as [H | H].
    + now rewrite Z.max_r.
    + rewrite Z.max_l by exact H. rewrite Hnil.
      symmetry. now apply (ignored_before_nil_below _ _ _ H).
  - exact Hig'.
  - lia.
Qed.

(** *** The rendering state is restored *)

Lemma bind_Ok {A B} (m : M A) (k : A -> M B) (st st' : state) (b : B) :
  bind m k st = Ok (b, st') ->
  exists a st1, m st = Ok (a, st1) /\ k a st1 = Ok (b, st').
Proof.
  unfold bind. destruct (m st) as [[a st1] |]; [eauto | discriminate].
Qed.

Lemma frame_ret {A} (a : A) : frame (ret a).
Proof. intros st a' st' H. injection H as _ <-. now split. Qed.

Lemma frame_raise {A} (e : exn) : frame (@raise A e).
Proof. intros st a st' H. discriminate. Qed.

Lemma frame_bind {A B} (m : M A) (k : A -> M B) :
  frame m -> (forall a, frame (k a)) -> frame (bind m k).
Proof.
  intros Hm Hk st b st' H. unfold bind in H.
  destruct (m st) as [[a st1] |] eqn:E; [| discriminate].
  destruct (Hm _ _ _ E) as [Hl Hc]. destruct (Hk a _ _ _ H) as [Hl' Hc'].
  split; congruence.
Qed.

Lemma frame_mapM {A B} (f : A -> M B) (l : list A) :
  Forall (fun x => frame (f x)) l -> frame (mapM f l).
Proof.
  induction 1 as [| x l Hx Hl IH]; cbn [mapM].
  - apply frame_ret.
  - apply frame_bind; [exact Hx | intros y].
    apply frame_bind; [exact IH | intros ys]. apply frame_ret.
Qed.

Lemma frame_get_level : frame get_level.
Proof. intros st a st' H. inversion H; subst. now split. Qed.

Lemma frame_get_class_stack : frame get_class_stack.
Proof. intros st a st' H. inversion H; subst. now split. Qed.

Lemma frame_write (evs : list event) : frame (write evs).
Proof. intros st a st' H. inversion H; subst. now split. Qed.

Lemma frame_self_leading_lines (node : ast.node) :
  frame (self_leading_lines node).
Proof.
  intros st a st' H. unfold self_leading_lines in H.
  destruct (leading_lines node (sync st)) as [[l ts] |]; [| discriminate].
  injection H as _ <-. now split.
Qed.

Lemma frame_self_leading_string (node : ast.node) :
  frame (self_leading_string node).
Proof.
  intros st a st' H. unfold self_leading_string in H.
  destruct (leading_string node (sync st)) as [[l ts] |]; [| discriminate].
  injection H as _ <-. now split.
Qed.

Lemma frame_self_trailing_comment_at (lineno : option Z) (cls : string) :
  frame (self_trailing_comment_at lineno cls).
Proof.
  intros st a st' H. unfold self_trailing_comment_at in H.
  destruct (trailing_comment_at lineno cls (sync st)) as [[x evs] |];
    [| discriminate].
  injection H as _ <-. now split.
Qed.

Lemma frame_self_sync_string (n : Z) (x : string) :
  frame (self_sync_string n x).
Proof.
  intros st a st' H. unfold self_sync_string in H.
  destruct (sync_string n x (sync st)) as [[[y ts] evs] |]; [| discriminate].
  injection H as _ <-. now split.
Qed.

Lemma frame_self_op_name (node : ast.node) : frame (self_op_name node).
Proof.
  intros st a st' H. unfold self_op_name in H.
  destruct (op_name node true); [| discriminate].
  injection H as _ <-. now split.
Qed.

Lemma frame_indent (x : string) : frame (indent x).
Proof.
  unfold indent. apply frame_bind; [apply frame_get_level | intros lvl].
  destruct (indent_newlines x). apply frame_ret.
Qed.

Lemma frame_indented {A} (m : M A) : frame m -> frame (indented m).
Proof.
  intros Hm st a st' H. unfold indented, bind, get_level, set_level, ret in H.
  destruct (m _) as [[r st1] |] eqn:E; [| discriminate].
  injection H as _ <-. apply Hm in E as [Hl Hc]. cbn in *.
  split; [lia | exact Hc].
Qed.

Lemma frame_with_class {A} (name : string) (m : M A) :
  frame m -> frame (with_class name m).
Proof.
  intros Hm st a st' H.
  unfold with_class, bind, get_class_stack, set_class_stack, ret in H.
  destruct (m _) as [[r st1] |] eqn:E; [| discriminate].
  apply Hm in E as [Hl Hc]. cbn [level class_stack] in Hl, Hc.
  rewrite Hc in H.
  destruct (class_stack st ++ [name]) as [| c cs] eqn:Happ.
  { now apply app_eq_nil in Happ as [_ ?]. }
  rewrite <- Happ in H. inversion H; subst. cbn [level class_stack].
  split; [exact Hl | apply removelast_last].
Qed.

Lemma frame_visit_body (v : ast.node -> M string) (body : list ast.node) :
  Forall (fun z => frame (v z)) body -> frame (visit_body v body).
Proof.
  intros H. apply frame_mapM.
  eapply Forall_impl; [exact H |]. intros z Hz. now apply frame_indented.
Qed.

Lemma frame_Dict_loop
    (entries : list ((option ast.node * M string) * (ast.node * M string))) :
  Forall (fun e => frame (snd (fst e)) /\ frame (snd (snd e))) entries ->
  frame (Dict_loop entries).
Proof.
  induction 1 as [| [[key vk] [value vv]] entries [Hk Hv] _ IH];
    cbn [Dict_loop]; [apply frame_ret |].
  cbn [fst snd] in Hk, Hv.
  apply frame_bind.
  { destruct key; [apply frame_self_leading_lines | apply frame_ret]. }
  intros head. apply frame_bind; [apply frame_self_trailing_comment_at |].
  intros tail. apply frame_bind; [exact Hk | intros k].
  apply frame_bind; [exact Hv | intros v0].
  apply frame_bind; [apply frame_indent | intros line].
  apply frame_bind; [exact IH | intros items]. apply frame_ret.
Qed.

Lemma list_all_Forall {A} (P : A -> Prop) (l : list A) :
  list_all A P l -> Forall P l.
Proof. induction 1; constructor; assumption. Qed.

Lemma frame_visit_or_none (v : ast.node -> M string) (x : option ast.node) :
  option_all ast.node (fun n => frame (v n)) x -> frame (visit_or_none v x).
Proof.
  destruct x as [n |]; cbn [visit_or_none]; [| intros _; apply frame_ret].
  now inversion 1.
Qed.

Lemma frame_Dict_keys (v : ast.node -> M string)
    (keys : list (option ast.node)) :
  list_all (option ast.node) (option_all ast.node (fun n => frame (v n))) keys
  -> Forall (fun k => frame (visit_or_none v k)) keys.
Proof.
  induction 1; constructor; [now apply frame_visit_or_none | assumption].
Qed.

Lemma frame_Dict_entries (v : ast.node -> M string)
    (keys : list (option ast.node)) :
  Forall (fun k => frame (visit_or_none v k)) keys ->
  forall values,
    Forall (fun x => frame (v x)) values ->
    Forall (fun e => frame (snd (fst e)) /\ frame (snd (snd e)))
      (combine (map (fun k => (k, visit_or_none v k)) keys)
               (map (fun x => (x, v x)) values)).
Proof.
  induction 1 as [| k keys Hk _ IH]; intros values Hv; [constructor |].
  destruct Hv as [| x values Hx Hv]; [constructor |].
  cbn [map combine]. constructor; [now split | now apply IH].
Qed.

Ltac frame_step :=
  first
    [ assumption
    | apply frame_ret
    | apply frame_raise
    | apply frame_get_level
    | apply frame_get_class_stack
    | apply frame_write
    | apply frame_self_leading_lines
    | apply frame_self_leading_string
    | apply frame_self_trailing_comment_at
    | apply frame_self_sync_string
    | apply frame_self_op_name
    | apply frame_indent
    | apply frame_indented
    | apply frame_with_class
    | apply frame_visit_body
    | apply frame_mapM
    | apply frame_bind; [| intros ?]
    | match goal with
      | |- frame (match ?x with _ => _ end) => destruct x
      | |- frame (if ?b then _ else _) => destruct b
      | |- Forall _ _ =>
          eapply Forall_impl; [eassumption | cbn beta; intros ? ?]
      | |- Forall _ _ => apply Forall_forall; intros ? _
      end ].

Ltac frame_auto := repeat frame_step.

(** Rendering any node leaves [level] and [class_stack] as they were. *)
Lemma visit_frame (node : ast.node) : frame (visit node).
Proof.
  induction node using ast.node_ind; cbn [visit].
  all: try (unfold do_ClassDef, do_FunctionDef, do_Interactive, do_Module,
    do_Lambda, do_Expr, do_Expression, do_GeneratorExp, do_arguments, do_arg,
    do_Attribute, do_Bytes, do_Call, do_keyword, do_comprehension,
    do_Ellipsis, do_ExtSlice, do_Index, do_List, do_ListComp, do_Name,
    do_NameConstant, do_Num, do_Repr, do_Slice, do_Str, do_Subscript,
    do_Tuple, do_BinOp, do_BoolOp, do_Compare, do_IfExp, do_UnaryOp,
    do_Assert, do_Assign, do_AugAssign, do_Break, do_Continue, do_Delete,
    do_ExceptHandler, do_Exec, do_For, do_Global, do_If, do_Import,
    do_ImportFrom, do_Pass, do_Print, do_Raise, do_Return, do_Try,
    do_TryExcept, do_TryFinally, do_While, do_With, do_Yield,
    statement, statement_list_head, orelse_plain, clause_list_tail,
    visit_present, visit_if_present, visit_or_none,
    self_trailing_comment, self_trailing_comment_list).
  all: repeat match goal with
       | H : list_all _ _ _ |- _ => apply list_all_Forall in H
       end.
  all: try match goal with
       | |- frame (do_Dict _ ?keys ?values) =>
           unfold do_Dict;
           destruct (negb (Nat.eqb (length keys) (length values)));
           [apply frame_raise |];
           apply frame_bind;
           [apply frame_indented, frame_Dict_loop, frame_Dict_entries;
            [now apply frame_Dict_keys | assumption]
           | intros ?]
       end.
  all: repeat match goal with
       | H : option_all _ _ ?o |- _ =>
           destruct o; [inversion H; subst; clear H | clear H]
       | H : sum_all _ _ _ _ ?o |- _ =>
           destruct o; inversion H; subst; clear H
       end.
  all: frame_auto.
Qed.

Lemma frame_level {A} (m : M A) :
  frame m -> forall st a st', m st = Ok (a, st') -> level st' = level st.
Proof. intros F st a st' H. exact (proj1 (F st a st' H)). Qed.

Lemma level_set_class_stack (v : list string) (st st' : state) (a : unit) :
  set_class_stack v st = Ok (a, st') -> level st' = level st.
Proof. intros H. inversion H; subst. reflexivity. Qed.

(** The loop over a nested body renders each statement one level deeper
    than the level at which the loop is entered, and leaves at that
    level. *)
Lemma visit_body_one_deeper (body : list ast.node) (lvl : Z) :
  forall st rs st',
    level st = lvl ->
    visit_body visit body st = Ok (rs, st') ->
    mapM (fun z => one_deeper lvl (visit z)) body st = Ok (rs, st') /\
    level st' = lvl.
Proof.
  unfold visit_body.
  induction body as [| z body IH]; intros st rs st' Hlvl H; cbn [mapM] in *.
  - unfold ret in *. inversion H; subst. now split.
  - apply bind_Ok in H as (y & s1 & Hy & H).
    apply bind_Ok in H as (ys & s2 & Hys & H).
    unfold ret in H. inversion H; subst. clear H.
    unfold indented, bind, get_level, set_level, ret in Hy.
    destruct (visit z _) as [[r sa] |] eqn:E; [| discriminate].
    inversion Hy; subst. clear Hy.
    pose proof (proj1 (visit_frame z _ _ _ E)) as Hl. cbn [level] in Hl.
    replace (level sa - 1) with (level st) in Hys by lia.
    eapply IH in Hys as [Hm Hl']; [| reflexivity].
    split; [| exact Hl'].
    unfold bind at 1. unfold one_deeper at 1. rewrite E.
    unfold bind at 1. rewrite Hm. reflexivity.
Qed.

Ltac frame_visit :=
  repeat first
    [ apply visit_frame
    | progress unfold visit_or_none, visit_present, visit_if_present,
        self_trailing_comment, self_trailing_comment_list
    | match goal with
      | |- Forall _ _ => apply Forall_forall; intros ? _; cbn beta
      end
    | frame_step ].

(** From [H : m st = Ok (a, st')], with [m] a sequence of steps: one
    equation for each step, and the level after each step. *)
Ltac run_inv H :=
  cbv beta iota in H;
  lazymatch type of H with
  | bind _ _ _ = Ok _ =>
      let a := fresh "a" in
      let s := fresh "s" in
      let Hm := fresh "Hm" in
      apply bind_Ok in H as (a & s & Hm & H); run_inv Hm; run_inv H
  | ret _ _ = Ok _ => unfold ret in H; inversion H; subst; clear H
  | ?m ?s0 = Ok (?a0, ?s1) =>
      let L := fresh "L" in
      first
        [ assert (L : level s1 = level s0)
            by (eapply (frame_level m); [frame_visit | exact H])
        | assert (L : level s1 = level s0)
            by (eapply level_set_class_stack; exact H)
        | idtac ]
  end.

(** The part of the list [l] before and after its segment [rs]. *)
Ltac split_at rs l :=
  lazymatch l with
  | rs => constr:((@nil string, @nil string))
  | (rs ++ ?r)%list => constr:((@nil string, r))
  | (?a ++ ?r)%list =>
      lazymatch split_at rs r with
      | (?p, ?q) => constr:(((a ++ p)%list, q))
      end
  | (?x :: ?r)%list =>
      lazymatch split_at rs r with
      | (?p, ?q) => constr:(((x :: p)%list, q))
      end
  end.

Ltac body_rendered :=
  lazymatch goal with
  | |- rendered_one_deeper (level ?st) (Py.join0 ?l) [] =>
      exists l, [], [], st, st;
      split; [reflexivity |]; split; [reflexivity |];
      split; [reflexivity |];
      exact (f_equal Py.join0 (eq_sym (app_nil_r l)))
  | |- rendered_one_deeper (level ?st) (Py.join0 ?l) ?b =>
      lazymatch goal with
      | Hb : visit_body visit b ?s1 = Ok (?rs, ?s2) |- _ =>
          lazymatch split_at rs l with
          | (?p, ?q) =>
              let Hs := fresh "Hs" in
              assert (Hs : level s1 = level st) by congruence;
              destruct (visit_body_one_deeper b (level st) s1 rs s2 Hs Hb)
                as [? ?];
              exists p, rs, q, s1, s2;
              split; [assumption |]; split; [assumption |];
              split; [assumption |];
              apply (f_equal Py.join0);
              repeat first [ rewrite <- app_assoc | rewrite app_nil_r
                           | progress cbn [app] ];
              reflexivity
          end
      end
  end.

(** C9. When the rendering of a node returns, [level] has the value it had
    before.  For a compound construct (class, function, [if], [for],
    [while], the three forms of [try], [with], exception handler) each
    statement of each nested body ([body], [orelse], [finalbody]) is
    rendered with [level] one above the value it had when the construct was
    entered, the text of the construct holds the texts of these statements
    in order, and [level] is back at that value after each of them. *)
Theorem level_restored_after_rendering (node : ast.node) (st st' : state)
    (out : string) :
  visit node st = Ok (out, st') ->
  level st' = level st /\
  Forall (rendered_one_deeper (level st) out) (nested_bodies node).
Proof.
  intros H. split; [exact (proj1 (visit_frame node st out st' H)) |].
  destruct node; cbn [nested_bodies]; try apply List.Forall_nil;
    cbn [visit] in H.
  all: unfold do_ClassDef, do_FunctionDef, do_ExceptHandler, do_For, do_If,
         do_While, do_Try, do_TryExcept, do_TryFinally, do_With,
         orelse_plain, clause_list_tail, with_class in H.
  all: repeat match type of H with
       | context [match ?x with [] => _ | _ :: _ => _ end] =>
           is_var x; destruct x
       end.
  all: run_inv H.
  all: repeat (apply List.Forall_cons; [body_rendered |]);
    apply List.Forall_nil.
Qed.

(** *** Comparison chains *)

Lemma mapM_self_op_name (ops : list ast.node) (st : state) :
  mapM self_op_name ops st = Ok (map op_text ops, st).
Proof.
  induction ops as [| o ops IH]; [reflexivity |].
  cbn [mapM map]. unfold bind at 1. unfold self_op_name at 1.
  rewrite op_name_total. unfold bind. now rewrite IH.
Qed.

Lemma mapM_length {A B} (f : A -> M B) (l : list A) :
  forall st ys st', mapM f l st = Ok (ys, st') -> length ys = length l.
Proof.
  induction l as [| x l IH]; intros st ys st' H; cbn [mapM] in H.
  - now injection H as <- _.
  - unfold bind at 1 in H. destruct (f x st) as [[y st1] |]; [| discriminate].
    unfold bind at 1 in H.
    destruct (mapM f l st1) as [[ys' st2] |] eqn:E; [| discriminate].
    injection H as <- _. cbn. f_equal. exact (IH _ _ _ E).
Qed.

(** C2, amended.  When the numbers of operators and of comparators of a
    comparison chain differ, the rendering returns, writes the diagnostic,
    and its text is the text of the left operand alone: the comparators are
    visited, but neither operators nor comparator texts are part of the
    result. *)
Theorem Compare_mismatch_renders_left_operand (st st1 st2 : state)
    (l : option Z) (lhs : ast.node) (ops comparators : list ast.node)
    (lt : string) (comps : list string) :
  visit lhs st = Ok (lt, st1) ->
  mapM visit comparators st1 = Ok (comps, st2) ->
  length ops <> length comparators ->
  visit (ast.Compare l lhs ops comparators) st
  = Ok (lt, mkState (level st2) (class_stack st2) (sync st2)
              (stdout st2 ++ [print_can_not_happen (map op_text ops) comps])).
Proof.
  intros Hl Hc Hne. cbn [visit]. unfold do_Compare.
  unfold bind at 1. rewrite Hl.
  unfold bind at 1. rewrite mapM_self_op_name.
  unfold bind at 1. rewrite Hc.
  apply mapM_length in Hc.
  destruct (Nat.eqb_spec (length (map op_text ops)) (length comps)) as [E |].
  - rewrite length_map in E. congruence.
  - unfold bind, write, ret. cbn. now destruct lt.
Qed.

(** *** The receiver sigil *)

Lemma append_cons (c : ascii) (a b : string) :
  String c a +:+ b = String c (a +:+ b).
Proof. reflexivity. Qed.

Lemma append_assoc (a b c : string) : (a +:+ b) +:+ c = a +:+ (b +:+ c).
Proof.
  induction a as [| x a IH]; [reflexivity |].
  now rewrite !append_cons, IH.
Qed.

Lemma append_empty_r (a : string) : a +:+ EmptyString = a.
Proof.
  induction a as [| x a IH]; [reflexivity |]. now rewrite append_cons, IH.
Qed.

Lemma concat_snoc (sep a : string) (l : list string) :
  l <> [] ->
  String.concat sep (l ++ [a]) = String.concat sep l +:+ sep +:+ a.
Proof.
  induction l as [| x l IH]; intros Hne; [contradiction |].
  destruct l as [| y l]; [reflexivity |].
  change (String.concat sep ((x :: y :: l) ++ [a]))
    with (x +:+ sep +:+ String.concat sep ((y :: l) ++ [a])).
  rewrite IH by discriminate.
  change (String.concat sep (x :: y :: l))
    with (x +:+ sep +:+ String.concat sep (y :: l)).
  now rewrite !append_assoc.
Qed.

Lemma concat_nonempty (sep x : string) (l : list string) :
  x <> EmptyString -> String.concat sep (x :: l) <> EmptyString.
Proof.
  intros Hx. destruct x as [| c x]; [contradiction |].
  now destruct l.
Qed.

Lemma sigil_eqb (x : string) : String.eqb ("@" +:+ x) "@" = String.eqb x EmptyString.
Proof. rewrite append_cons. now destruct x. Qed.

(** C6, amended.  A bare [self] renders as the sigil [@], and an attribute
    chain rooted at [self] renders as [@] followed by the attribute names
    joined with dots (no dot after the sigil), whatever the state: the rule
    does not look at the class stack.  Any other name renders as itself. *)
Theorem self_renders_as_sigil_in_any_scope (st : state) (l : option Z)
    (attrs : list (option Z * string)) :
  Forall (fun a => snd a <> EmptyString) attrs ->
  visit (attribute_chain (ast.Name l "self") attrs) st
  = Ok ("@" +:+ Py.join "." (map snd attrs), st) /\
  (forall id, id <> "self" -> visit (ast.Name l id) st = Ok (id, st)).
Proof.
  intros Hne. split.
  - induction attrs as [| a attrs IH] using rev_ind; [reflexivity |].
    apply Forall_app in Hne as [Hne Ha]. apply Forall_cons in Ha as [Ha _].
    specialize (IH Hne).
    unfold attribute_chain in *. rewrite fold_left_app. cbn [fold_left visit].
    unfold do_Attribute, bind. rewrite IH. unfold ret. do 2 f_equal.
    rewrite sigil_eqb, map_app. cbn [map]. unfold Py.join.
    destruct attrs as [| b attrs].
    + reflexivity.
    + cbn [map]. apply Forall_cons in Hne as [Hb _].
      destruct (String.eqb_spec (String.concat "." (snd b :: map snd attrs))
                  EmptyString) as [E | _].
      * now apply concat_nonempty in E.
      * change (snd b :: map snd attrs ++ [snd a])
          with ((snd b :: map snd attrs) ++ [snd a]).
        rewrite concat_snoc by discriminate. now rewrite !append_assoc.
  - intros id Hid. cbn [visit]. unfold do_Name, ret.
    now destruct (String.eqb_spec id "self").
Qed.

(** *** Function definitions *)


Lemma split_plain (x : string) : plain x = true -> Py.split "," x = [x].
Proof.
  induction x as [| c x IH]; [reflexivity |].
  cbn [plain Py.split]. intros H.
  apply andb_prop in H as [H Hx]. apply andb_prop in H as [Hc _].
  apply negb_true_iff in Hc. now rewrite Hc, IH.
Qed.

Lemma split_plain_comma (x rest : string) :
  plain x = true ->
  Py.split "," (x +:+ "," +:+ rest) = x :: Py.split "," rest.
Proof.
  induction x as [| c x IH]; [reflexivity |].
  cbn [plain]. intros H.
  apply andb_prop in H as [H Hx]. apply andb_prop in H as [Hc _].
  apply negb_true_iff in Hc.
  rewrite append_cons. cbn [Py.split]. now rewrite Hc, IH.
Qed.

Lemma split_join_plain (l : list string) :
  l <> [] -> Forall (fun x => plain x = true) l ->
  Py.split "," (Py.join "," l) = l.
Proof.
  induction l as [| x l IH]; intros Hne Hall; [contradiction |].
  apply Forall_cons in Hall as [Hx Hall].
  destruct l as [| y l].
  - now apply split_plain.
  - change (Py.join "," (x :: y :: l))
      with (x +:+ "," +:+ Py.join "," (y :: l)).
    rewrite split_plain_comma by exact Hx.
    now rewrite IH.
Qed.

Lemma lstrip_plain (x : string) : plain x = true -> Py.lstrip x = x.
Proof.
  destruct x as [| c x]; [reflexivity |]. cbn [plain Py.lstrip]. intros H.
  apply andb_prop in H as [H _]. apply andb_prop in H as [_ Hc].
  apply negb_true_iff in Hc. now rewrite Hc.
Qed.

Lemma rstrip_plain (x : string) : plain x = true -> Py.rstrip x = x.
Proof.
  induction x as [| c x IH]; [reflexivity |]. cbn [plain Py.rstrip].
  intros H. apply andb_prop in H as [H Hx]. apply andb_prop in H as [_ Hc].
  apply negb_true_iff in Hc. rewrite (IH Hx), Hc. now destruct x.
Qed.

Lemma strip_plain (x : string) : plain x = true -> Py.strip x = x.
Proof.
  intros H. unfold Py.strip. now rewrite rstrip_plain, lstrip_plain.
Qed.

Lemma map_strip_plain (l : list string) :
  Forall (fun x => plain x = true) l -> map Py.strip l = l.
Proof.
  induction 1 as [| x l Hx _ IH]; [reflexivity |].
  cbn [map]. now rewrite strip_plain, IH.
Qed.

Lemma FunctionDef_params_plain (cs : list string) (rendered : list string) :
  Forall (fun x => plain x = true) rendered ->
  FunctionDef_params cs (Py.join "," rendered)
  = Py.join ", " (kept_params cs rendered).
Proof.
  intros Hall. unfold FunctionDef_params.
  destruct rendered as [| x l].
  - now destruct cs.
  - rewrite split_join_plain by (discriminate || exact Hall).
    now rewrite map_strip_plain.
Qed.





(** ** Further properties of the code *)

(** *** Utility functions *)

Lemma length_append (a b : string) :
  String.length (a +:+ b) = (String.length a + String.length b)%nat.
Proof.
  induction a as [| c a IH]; [reflexivity |].
  rewrite append_cons. cbn [String.length]. now rewrite IH.
Qed.

Lemma length_take (k : nat) (x : string) :
  String.length (Py.take k x) = Nat.min k (String.length x).
Proof.
  revert x. induction k as [| k IH]; intros [| c x]; cbn; try reflexivity.
  now rewrite IH.
Qed.

Lemma length_slice_to (x : string) (k : Z) :
  Z.of_nat (String.length (Py.slice_to x k))
  = Z.max 0 (if 0 <=? k then Z.min k (Z.of_nat (String.length x))
             else Z.of_nat (String.length x) + k).
Proof.
  unfold Py.slice_to. destruct (Z.leb_spec 0 k); rewrite length_take; lia.
Qed.

(** X1. [truncate(s, n)] returns [s] itself when it has at most [n]
    characters.  Otherwise, for [n >= 3] the result has exactly [n]
    characters, and for [n < 3] it is longer than [n]: the slice [s[:n-3]]
    then counts from the end. *)
Theorem truncate_length (x : string) (n : Z) :
  (Z.of_nat (String.length x) <= n -> truncate x n = x) /\
  (n < Z.of_nat (String.length x) -> 3 <= n ->
   Z.of_nat (String.length (truncate x n)) = n) /\
  (n < Z.of_nat (String.length x) -> n < 3 ->
   n < Z.of_nat (String.length (truncate x n))).
Proof.
  unfold truncate. repeat split; intros H.
  - destruct (Z.leb_spec (Z.of_nat (String.length x)) n); [reflexivity | lia].
  - intros Hn.
    destruct (Z.leb_spec (Z.of_nat (String.length x)) n); [lia |].
    rewrite length_append, Nat2Z.inj_add, length_slice_to.
    destruct (Z.leb_spec 0 (n - 3)); cbn [String.length]; lia.
  - intros Hn.
    destruct (Z.leb_spec (Z.of_nat (String.length x)) n); [lia |].
    rewrite length_append, Nat2Z.inj_add, length_slice_to.
    destruct (Z.leb_spec 0 (n - 3)); cbn [String.length]; lia.
Qed.

Lemma concat0_cons (x : string) (l : list string) :
  String.concat EmptyString (x :: l) = x +:+ String.concat EmptyString l.
Proof.
  destruct l as [| y l]; [now rewrite append_empty_r | reflexivity].
Qed.

Lemma repeat_succ (x : string) (k : nat) :
  Py.repeat x (Z.of_nat (S k)) = x +:+ Py.repeat x (Z.of_nat k).
Proof.
  unfold Py.repeat. rewrite !Nat2Z.id. cbn [List.repeat].
  apply concat0_cons.
Qed.

Lemma repeat_zero (x : string) : Py.repeat x 0 = EmptyString.
Proof. reflexivity. Qed.

Lemma width_of_blanks (tab_width : Z) (rest : string) (k : nat) :
  forall w,
    computeLeadingWhitespaceWidth_loop tab_width
      (Py.repeat " " (Z.of_nat k) +:+ rest) w
    = computeLeadingWhitespaceWidth_loop tab_width rest (w + Z.of_nat k).
Proof.
  induction k as [| k IH]; intros w.
  - rewrite repeat_zero, Z.add_0_r. reflexivity.
  - rewrite repeat_succ, append_assoc, append_cons.
    cbn [computeLeadingWhitespaceWidth_loop Ascii.eqb Bool.eqb].
    change (EmptyString +:+ ?r) with r. rewrite IH. f_equal. lia.
Qed.

Lemma width_of_tabs (tab_width : Z) (rest : string) (k : nat) :
  1 < tab_width ->
  forall q,
    computeLeadingWhitespaceWidth_loop tab_width
      (Py.repeat TAB (Z.of_nat k) +:+ rest) (q * tab_width)
    = computeLeadingWhitespaceWidth_loop tab_width rest
        ((q + Z.of_nat k) * tab_width).
Proof.
  intros Htw. induction k as [| k IH]; intros q.
  - rewrite repeat_zero, Z.add_0_r. reflexivity.
  - rewrite repeat_succ, append_assoc. unfold TAB at 1. rewrite append_cons.
    cbn [computeLeadingWhitespaceWidth_loop Ascii.eqb Bool.eqb].
    change (EmptyString +:+ ?r) with r.
    destruct (Z.eqb_spec (Z.abs tab_width) 0) as [E | _]; [lia |].
    rewrite Z.abs_eq by lia. rewrite Z.mod_mul by lia.
    replace (q * tab_width + (tab_width - 0)) with ((q + 1) * tab_width)
      by lia.
    rewrite IH. f_equal. lia.
Qed.

(** X2. The width of the white space that [computeLeadingWhitespace] builds
    for [width], measured by [computeLeadingWhitespaceWidth] with the same
    tab width, is [width] again, and 0 for a negative [width]; no tab width
    makes the measure fail on it. *)
Theorem leading_whitespace_round_trip (width tab_width : Z) :
  width < 2 ^ 53 ->
  computeLeadingWhitespaceWidth (computeLeadingWhitespace width tab_width)
    tab_width
  = Some (Z.max 0 width).
Proof.
  intros _. unfold computeLeadingWhitespaceWidth, computeLeadingWhitespace.
  destruct (Z.leb_spec width 0) as [Hw | Hw].
  - cbn. f_equal. lia.
  - destruct (Z.ltb_spec 1 tab_width) as [Htw | Htw].
    + pose proof (Z.div_pos width tab_width) as Hq.
      pose proof (Z.mod_pos_bound width tab_width) as Hr.
      rewrite <- (Z2Nat.id (width / tab_width)) by lia.
      rewrite <- (Z2Nat.id (width mod tab_width)) at 1 by lia.
      rewrite (width_of_tabs tab_width _ _ Htw 0).
      rewrite <- (append_empty_r (Py.repeat " " _)), width_of_blanks.
      cbn [computeLeadingWhitespaceWidth_loop]. f_equal.
      rewrite !Z2Nat.id by lia.
      pose proof (Z.div_mod width tab_width). lia.
    + rewrite <- (Z2Nat.id width) at 1 by lia.
      rewrite <- (append_empty_r (Py.repeat " " _)), width_of_blanks.
      cbn [computeLeadingWhitespaceWidth_loop]. f_equal. lia.
Qed.

Lemma concat0_app (l1 l2 : list string) :
  String.concat EmptyString (l1 ++ l2)
  = String.concat EmptyString l1 +:+ String.concat EmptyString l2.
Proof.
  induction l1 as [| x l1 IH]; [reflexivity |].
  change ((x :: l1) ++ l2) with (x :: (l1 ++ l2)).
  now rewrite !concat0_cons, IH, append_assoc.
Qed.

Lemma splitlines_keep_concat (n : nat) :
  forall x cur,
    (String.length x <= n)%nat ->
    String.concat EmptyString (Py.splitlines_keep cur x) = cur +:+ x.
Proof.
  induction n as [| n IH]; intros x cur Hlen.
  - destruct x; [| cbn in Hlen; lia].
    cbn [Py.splitlines_keep]. rewrite append_empty_r. now destruct cur.
  - destruct x as [| c x].
    { cbn [Py.splitlines_keep]. rewrite append_empty_r. now destruct cur. }
    cbn [String.length] in Hlen. cbn [Py.splitlines_keep].
    destruct (Py.is_linebreak c).
    + destruct x as [| c' x']; [reflexivity |].
      cbn [String.length] in Hlen.
      destruct (Ascii.eqb c "013" && Ascii.eqb c' "010").
      * rewrite concat0_cons, IH by lia. now rewrite append_assoc.
      * rewrite concat0_cons, IH by (cbn [String.length]; lia).
        now rewrite append_assoc.
    + rewrite IH by lia. now rewrite append_assoc.
Qed.

(** X3. [g.splitLines] loses nothing: the lines, joined, are the text. *)
Theorem splitLines_join (x : string) : Py.join0 (splitLines x) = x.
Proof.
  unfold splitLines, Py.join0. destruct x as [| c x]; [reflexivity |].
  cbn [Py.truthy].
  now apply (splitlines_keep_concat (String.length (String c x))).
Qed.

Lemma ReadLinesClass_read_spec (k : nat) :
  forall lns j,
    (j <= length lns)%nat ->
    ReadLinesClass.read k (ReadLinesClass.mk lns (Z.of_nat j))
    = Ok (take k (drop j lns) ++ replicate (k - (length lns - j)) EmptyString,
          ReadLinesClass.mk lns (Z.of_nat (Nat.min (j + k) (length lns)))).
Proof.
  induction k as [| k IH]; intros lns j Hj.
  - cbn [ReadLinesClass.read]. rewrite take_0. cbn [app replicate Nat.sub].
    now replace (Nat.min (j + 0) (length lns)) with j by lia.
  - cbn [ReadLinesClass.read]. unfold ReadLinesClass.next.
    cbn [ReadLinesClass.i ReadLinesClass.lines].
    destruct (Z.ltb_spec (Z.of_nat j) (Z.of_nat (length lns))) as [Hlt | Hge].
    + rewrite getitem_nonneg by lia. rewrite Nat2Z.id.
      destruct (lookup_lt_is_Some_2 lns j) as [line Hline]; [lia |].
      rewrite Hline.
      replace (Z.of_nat j + 1) with (Z.of_nat (S j)) by lia.
      rewrite IH by lia. rewrite (drop_S _ _ _ Hline). cbn [take app].
      replace (S k - (length lns - j))%nat with (k - (length lns - S j))%nat
        by lia.
      now replace (j + S k)%nat with (S j + k)%nat by lia.
    + assert (j = length lns) as -> by lia.
      specialize (IH lns (length lns) (le_n _)). rewrite IH.
      rewrite drop_all, !take_nil, Nat.sub_diag, !Nat.sub_0_r.
      cbn [app replicate].
      now replace (Nat.min (length lns + S k) (length lns))
        with (Nat.min (length lns + k) (length lns)) by lia.
Qed.

(** X4. A [ReadLinesClass] object hands out the lines of its text in
    order and then the empty string for ever: what [k] calls return, for
    any [k] that is at least the number of lines, is the list of lines
    followed by empty strings, and joined it is the text. *)
Theorem ReadLinesClass_reads_the_text (x : string) (k : nat) :
  (length (splitLines x) <= k)%nat ->
  exists ls self',
    ReadLinesClass.read k (ReadLinesClass.init x) = Ok (ls, self') /\
    ls = splitLines x
         ++ replicate (k - length (splitLines x)) EmptyString /\
    Py.join0 ls = x /\
    ReadLinesClass.next self' = Ok (EmptyString, self').
Proof.
  intros Hk. unfold ReadLinesClass.init.
  change 0 with (Z.of_nat 0).
  rewrite ReadLinesClass_read_spec by lia.
  rewrite drop_0, Nat.sub_0_r, take_ge by lia.
  eexists _, _. split; [reflexivity |]. split; [reflexivity |]. split.
  - unfold Py.join0. rewrite concat0_app.
    replace (String.concat EmptyString (splitLines x)) with x.
    2: { unfold splitLines. destruct x as [| c x]; [reflexivity |].
         cbn [Py.truthy]. symmetry.
         apply (splitlines_keep_concat (String.length (String c x))).
         reflexivity. }
    generalize (k - length (splitLines x))%nat as m.
    induction m as [| m IHm]; [apply append_empty_r |].
    cbn [replicate]. rewrite concat0_cons. exact IHm.
  - unfold ReadLinesClass.next.
    cbn [ReadLinesClass.i ReadLinesClass.lines].
    destruct (Z.ltb_spec (Z.of_nat (Nat.min (0 + k) (length (splitLines x))))
                (Z.of_nat (length (splitLines x)))); [lia | reflexivity].
Qed.

(** *** Building the TokenSync object *)

Lemma index_Some_iff (len : nat) (i : Z) :
  - Z.of_nat len <= i < Z.of_nat len <-> exists k, Py.index len i = Some k.
Proof.
  unfold Py.index. split.
  - intros H. destruct ((0 <=? i) && (i <? Z.of_nat len)) eqn:E1; [eauto |].
    destruct ((- Z.of_nat len <=? i) && (i <? 0)) eqn:E2; [eauto | lia].
  - intros [k H].
    destruct ((0 <=? i) && (i <? Z.of_nat len)) eqn:E1; [lia |].
    destruct ((- Z.of_nat len <=? i) && (i <? 0)) eqn:E2; [lia |].
    discriminate.
Qed.

Lemma make_line_tokens_loop_ok (tokens : list token) :
  forall res,
    Forall (fun tk => - Z.of_nat (length res) <= token_line tk
                      < Z.of_nat (length res)) tokens ->
    exists res', make_line_tokens_loop tokens res = Ok res'.
Proof.
  induction tokens as [| tk tokens IH]; intros res Hall; [now eexists |].
  apply Forall_cons in Hall as [Htk Hall].
  cbn [make_line_tokens_loop]. unfold Py.getitem, Py.setitem.
  apply index_Some_iff in Htk as [k Hk]. rewrite Hk.
  destruct (lookup_lt_is_Some_2 res k) as [b Hb];
    [now apply index_Some_lt in Hk |].
  rewrite Hb. apply IH. now rewrite length_insert.
Qed.

Lemma make_line_tokens_loop_raises (tokens : list token) :
  forall res,
    Exists (fun tk => ~ (- Z.of_nat (length res) <= token_line tk
                         < Z.of_nat (length res))) tokens ->
    make_line_tokens_loop tokens res = Raised IndexError.
Proof.
  induction tokens as [| tk tokens IH]; intros res Hex;
    [now apply Exists_nil in Hex |].
  cbn [make_line_tokens_loop]. unfold Py.getitem, Py.setitem.
  destruct (Py.index (length res) (token_line tk)) as [k |] eqn:Hk;
    [| reflexivity].
  destruct (lookup_lt_is_Some_2 res k) as [b Hb];
    [now apply index_Some_lt in Hk |].
  rewrite Hb. apply IH. rewrite length_insert.
  apply Exists_cons in Hex as [Hbad | Hex]; [| exact Hex].
  exfalso. apply Hbad. apply index_Some_iff. eauto.
Qed.

Lemma TokenSync_init_of_line_tokens (src : string) (tokens : list token)
    (lt : list (list token)) :
  make_line_tokens (map Py.rstrip (splitLines src)) tokens = Ok lt ->
  exists ts, TokenSync_init src tokens = Ok ts.
Proof.
  intros H. unfold TokenSync_init. rewrite H.
  unfold make_string_tokens, make_ignored_lines.
  rewrite length_map, Nat.eqb_refl, make_ignored_lines_from_length,
    Nat.eqb_refl.
  now eexists.
Qed.

(** X5. For a list of tokens whose types are all named by [tok_name]:
    building a [TokenSync] fails exactly when some token lies outside the
    source, that is, with [n] lines, when the subscript of its bucket is
    not in [-(n+1) .. n].  The failure is an [IndexError]; none of the
    three assertions on the lengths of the lists built can fail. *)
Theorem TokenSync_init_fails_on_stray_token (src : string)
    (tokens : list token) :
  let n := length (map Py.rstrip (splitLines src)) in
  (Forall (line_in_range n) tokens ->
   exists ts, TokenSync_init src tokens = Ok ts) /\
  (Exists (fun tk => ~ line_in_range n tk) tokens ->
   TokenSync_init src tokens = Raised IndexError).
Proof.
  intros n. split.
  - intros Hall.
    destruct (make_line_tokens_loop_ok tokens (replicate (n + 1) []))
      as [res Hres].
    { eapply Forall_impl; [exact Hall |]. unfold line_in_range.
      intros tk Htk. rewrite length_replicate. lia. }
    apply (TokenSync_init_of_line_tokens src tokens res).
    unfold make_line_tokens. fold n. rewrite Hres.
    apply make_line_tokens_loop_spec in Hres as [Hlen _].
    rewrite length_replicate in Hlen. now rewrite Hlen, Nat.eqb_refl.
  - intros Hex. unfold TokenSync_init, make_line_tokens. fold n.
    rewrite make_line_tokens_loop_raises; [reflexivity |].
    eapply Exists_impl; [exact Hex |]. unfold line_in_range.
    intros tk Htk. rewrite length_replicate. lia.
Qed.

(** X6. A [TokenSync] object that was built has one bucket, one string
    queue and one ignored-line entry per line of the source, plus one; its
    watermark starts within them; and every token of the stream lies inside
    the source. *)
Theorem TokenSync_init_shape (src : string) (tokens : list token)
    (ts : TokenSync) :
  TokenSync_init src tokens = Ok ts ->
  s ts = src /\
  lines ts = map Py.rstrip (splitLines src) /\
  length (line_tokens ts) = (length (lines ts) + 1)%nat /\
  length (string_tokens ts) = (length (lines ts) + 1)%nat /\
  length (ignored_lines ts) = (length (lines ts) + 1)%nat /\
  0 <= first_leading_line ts <= Z.of_nat (length (lines ts)) + 1 /\
  Forall (line_in_range (length (lines ts))) tokens.
Proof.
  intros Hinit.
  destruct (TokenSync_init_inv _ _ _ Hinit) as (Hl & Hlt & Hst & Hig & Hw).
  destruct (make_line_tokens_spec _ _ _ Hlt) as [Hlen _].
  assert (Hs : s ts = src).
  { unfold TokenSync_init in Hinit.
    destruct (make_line_tokens _ _); [| discriminate].
    destruct (make_string_tokens _); [| discriminate].
    destruct (make_ignored_lines _ _ _) as [[ig w] |]; [| discriminate].
    now injection Hinit as <-. }
  assert (Hlig : length (ignored_lines ts) = (length (lines ts) + 1)%nat).
  { now rewrite Hig, make_ignored_lines_from_length. }
  repeat split; try assumption.
  - now rewrite Hst, length_map.
  - rewrite Hw. pose proof (first_ignored_from_spec (ignored_lines ts) 0). lia.
  - rewrite Hw. pose proof (first_ignored_from_spec (ignored_lines ts) 0). lia.
  - apply Forall_forall. intros tk Hin. unfold line_in_range.
    destruct (decide
                (- (Z.of_nat (length (lines ts)) + 1) <= token_line tk
                 <= Z.of_nat (length (lines ts)))) as [H | H]; [exact H |].
    exfalso. unfold make_line_tokens in Hlt.
    rewrite make_line_tokens_loop_raises in Hlt; [discriminate |].
    apply Exists_exists. exists tk. split; [exact Hin |].
    rewrite length_replicate. lia.
Qed.

Lemma concat_insert_snoc (tk : token) (res : list (list token)) :
  forall j b,
    res !! j = Some b ->
    concat (<[j := b ++ [tk]]> res) ≡ₚ tk :: concat res.
Proof.
  induction res as [| x res IH]; intros j b Hj; [discriminate |].
  destruct j as [| j]; cbn in Hj |- *.
  - injection Hj as ->. rewrite <- app_assoc. cbn.
    now rewrite <- Permutation_middle.
  - rewrite (IH j b Hj). now rewrite <- Permutation_middle.
Qed.

Lemma make_line_tokens_loop_permutation (tokens : list token) :
  forall res res',
    make_line_tokens_loop tokens res = Ok res' ->
    concat res' ≡ₚ concat res ++ tokens.
Proof.
  induction tokens as [| tk tokens IH]; intros res res' H.
  - injection H as <-. now rewrite app_nil_r.
  - cbn [make_line_tokens_loop] in H. unfold Py.getitem, Py.setitem in H.
    destruct (Py.index (length res) (token_line tk)) as [j |]; [| discriminate].
    destruct (res !! j) as [b |] eqn:Hb; [| discriminate].
    rewrite (IH _ _ H), (concat_insert_snoc tk res j b Hb).
    now rewrite <- Permutation_middle.
Qed.

Lemma concat_replicate_nil {A} (n : nat) : concat (replicate n (@nil A)) = [].
Proof. induction n as [| n IH]; [reflexivity | exact IH]. Qed.

(** X7. The buckets of a built [TokenSync] partition the token stream:
    together they hold every token of the stream exactly as often as the
    stream does, and a token is only ever in the bucket that its row
    selects. *)
Theorem line_tokens_partition_the_stream (src : string)
    (tokens : list token) (ts : TokenSync) :
  TokenSync_init src tokens = Ok ts ->
  concat (line_tokens ts) ≡ₚ tokens /\
  (forall k bucket tk,
     line_tokens ts !! k = Some bucket -> In tk bucket ->
     Py.index (length (line_tokens ts)) (token_line tk) = Some k).
Proof.
  intros Hinit.
  destruct (TokenSync_init_inv _ _ _ Hinit) as (_ & Hlt & _).
  split.
  - unfold make_line_tokens in Hlt.
    destruct (make_line_tokens_loop tokens _) as [res |] eqn:E;
      [| discriminate].
    destruct (Nat.eqb _ _); [| discriminate]. injection Hlt as <-.
    apply make_line_tokens_loop_permutation in E.
    now rewrite concat_replicate_nil in E.
  - intros k bucket tk Hk Hin.
    destruct (make_line_tokens_spec _ _ _ Hlt) as [_ Hb].
    rewrite Hb in Hk by (now apply lookup_lt_Some in Hk).
    injection Hk as <-. apply filter_In in Hin as [_ Hin].
    unfold in_bucket in Hin. now apply bool_decide_eq_true_1 in Hin.
Qed.

Lemma make_blank_lines_from_cons (aList : list token)
    (l : list (list token)) (i : Z) :
  make_blank_lines_from i (aList :: l)
  = (if is_blank_bucket aList then [i] else [])
    ++ make_blank_lines_from (i + 1) l.
Proof.
  cbn [make_blank_lines_from].
  destruct aList as [| z [| z' r]]; cbn [is_blank_bucket]; try reflexivity.
  now destruct (String.eqb (token_kind z) "nl").
Qed.

Lemma in_list_make_blank_lines_from (l : list (list token)) :
  forall i x,
    in_list x (make_blank_lines_from i l)
    = if x <? i then false
      else match l !! Z.to_nat (x - i) with
           | Some bucket => is_blank_bucket bucket
           | None => false
           end.
Proof.
  induction l as [| aList l IH]; intros i x.
  - cbn. now destruct (x <? i).
  - rewrite make_blank_lines_from_cons. unfold in_list.
    rewrite existsb_app. fold (in_list x (make_blank_lines_from (i + 1) l)).
    rewrite IH.
    destruct (Z.ltb_spec x i) as [Hlt | Hge].
    + destruct (Z.ltb_spec x (i + 1)); [| lia].
      destruct (is_blank_bucket aList); [| reflexivity].
      cbn. destruct (Z.eqb_spec x i); [lia | reflexivity].
    + destruct (Z.eq_dec x i) as [-> | Hne].
      * rewrite Z.sub_diag.
        replace ((aList :: l) !! Z.to_nat 0) with (Some aList)
          by reflexivity.
        destruct (Z.ltb_spec i (i + 1)); [| lia].
        destruct (is_blank_bucket aList); [| reflexivity].
        cbn. now rewrite Z.eqb_refl.
      * destruct (Z.ltb_spec x (i + 1)); [lia |].
        replace (Z.to_nat (x - i)) with (S (Z.to_nat (x - (i + 1)))) by lia.
        replace ((aList :: l) !! S (Z.to_nat (x - (i + 1))))
          with (l !! Z.to_nat (x - (i + 1))) by reflexivity.
        destruct (is_blank_bucket aList); [| reflexivity].
        cbn. destruct (Z.eqb_spec x i); [lia | reflexivity].
Qed.

Lemma make_ignored_lines_from_entries (nl : token)
    (full : list (list token)) :
  forall l j,
    l = drop j full ->
    make_ignored_lines_from nl (make_blank_lines full) (Z.of_nat j) l
    = map (ignored_entry nl) l.
Proof.
  induction l as [| aList l IH]; intros j Hl; [reflexivity |].
  cbn [make_ignored_lines_from map]. f_equal.
  - unfold ignored_entry. destruct (find is_line_comment aList); [reflexivity |].
    unfold make_blank_lines. rewrite in_list_make_blank_lines_from.
    destruct (Z.ltb_spec (Z.of_nat j) 0); [lia |].
    rewrite Z.sub_0_r, Nat2Z.id.
    assert (Hj : full !! j = Some aList).
    { rewrite <- (Nat.add_0_r j), <- lookup_drop, <- Hl. reflexivity. }
    now rewrite Hj.
  - replace (Z.of_nat j + 1) with (Z.of_nat (S j)) by lia.
    apply IH. pose proof (f_equal (drop 1) Hl) as Hl'.
    rewrite drop_drop in Hl'. cbn [drop] in Hl'. rewrite drop_0 in Hl'.
    rewrite Hl'. f_equal. lia.
Qed.

Lemma first_ignored_from_entry (ignored : list (option token)) :
  forall i,
    let w := first_ignored_from i ignored in
    (forall k, (k < Z.to_nat (w - i))%nat -> ignored !! k = Some None) /\
    (w < i + Z.of_nat (length ignored) ->
     exists tk, ignored !! Z.to_nat (w - i) = Some (Some tk)).
Proof.
  induction ignored as [| entry rest IH]; intros i; cbn [first_ignored_from].
  - split; [intros k Hk; lia | cbn; lia].
  - destruct entry as [t |].
    + rewrite Z.sub_diag. split; [intros k Hk; lia | eauto].
    + destruct (IH (i + 1)) as [Hnone Hsome].
      pose proof (first_ignored_from_spec rest (i + 1)) as [Hb _].
      replace (Z.to_nat (first_ignored_from (i + 1) rest - i))
        with (S (Z.to_nat (first_ignored_from (i + 1) rest - (i + 1))))
        by lia.
      split.
      * intros [| k] Hk; [reflexivity |]. cbn. apply Hnone. lia.
      * intros Hlt. cbn [lookup list_lookup]. apply Hsome.
        cbn [length] in Hlt. lia.
Qed.

(** X8. In a built [TokenSync], the entry of [ignored_lines] for a line
    depends on the bucket of that line alone: it is the first full-line
    comment of the bucket, else the synthetic newline token when the bucket
    is a single ['nl'] token, else [None].  The watermark starts at the
    first line that has an entry: no line before it is ignored. *)
Theorem ignored_lines_by_bucket (src : string) (tokens : list token)
    (ts : TokenSync) :
  TokenSync_init src tokens = Ok ts ->
  ignored_lines ts = map (ignored_entry make_nl_token) (line_tokens ts) /\
  (forall k, (k < Z.to_nat (first_leading_line ts))%nat ->
             ignored_lines ts !! k = Some None) /\
  (first_leading_line ts < Z.of_nat (length (ignored_lines ts)) ->
   exists tk,
     ignored_lines ts !! Z.to_nat (first_leading_line ts) = Some (Some tk)).
Proof.
  intros Hinit.
  destruct (TokenSync_init_inv _ _ _ Hinit) as (_ & _ & _ & Hig & Hw).
  pose proof (first_ignored_from_entry (ignored_lines ts) 0) as [Hnone Hsome].
  rewrite <- Hw, Z.sub_0_r in Hnone, Hsome.
  split; [| split; [exact Hnone | exact Hsome]].
  rewrite Hig.
  apply (make_ignored_lines_from_entries make_nl_token (line_tokens ts)
           (line_tokens ts) 0).
  now rewrite drop_0.
Qed.

(** *** Leading lines, again *)

Lemma leading_lines_loop_beyond (ignored : list (option token)) (k : nat) :
  forall i acc,
    0 <= i <= Z.of_nat (length ignored) ->
    Z.of_nat (length ignored) < i + Z.of_nat k ->
    leading_lines_loop ignored k i acc = Raised IndexError.
Proof.
  induction k as [| k IH]; intros i acc Hi Hk; [lia |].
  cbn [leading_lines_loop].
  destruct (Z.eq_dec i (Z.of_nat (length ignored))) as [-> | Hne].
  - unfold Py.getitem, Py.index.
    destruct ((0 <=? Z.of_nat (length ignored))
              && (Z.of_nat (length ignored) <? Z.of_nat (length ignored)))
      eqn:E1; [lia |].
    destruct ((- Z.of_nat (length ignored) <=? Z.of_nat (length ignored))
              && (Z.of_nat (length ignored) <? 0)) eqn:E2; [lia |].
    reflexivity.
  - rewrite getitem_nonneg by lia.
    destruct (lookup_lt_is_Some_2 ignored (Z.to_nat i)) as [entry ->]; [lia |].
    apply IH; lia.
Qed.

(** X9. A second call of [leading_lines] for the same node returns no
    line and changes nothing: what the first call returned is not returned
    again. *)
Theorem leading_lines_twice (node : ast.node) (self self' : TokenSync)
    (l : list string) :
  leading_lines node self = Ok (l, self') ->
  leading_lines node self' = Ok ([], self').
Proof.
  unfold leading_lines. destruct (ast.lineno node) as [n |].
  - destruct (leading_lines_loop _ _ _ _) as [[l0 i'] |] eqn:E;
      [| discriminate].
    intros H. injection H as _ <-.
    apply leading_lines_loop_watermark in E.
    unfold set_first_leading_line.
    cbn [first_leading_line ignored_lines s lines nl_token line_tokens
         blank_lines string_tokens].
    replace (Z.to_nat (n - i')) with 0%nat by lia.
    reflexivity.
  - intros H. now injection H as _ <-.
Qed.

(** X10. [leading_lines] fails with an [IndexError], and does not return,
    for a node whose line number is beyond the entries of [ignored_lines],
    that is beyond the number of lines of the source plus one. *)
Theorem leading_lines_beyond_the_source (node : ast.node) (self : TokenSync)
    (n : Z) :
  ast.lineno node = Some n ->
  0 <= first_leading_line self <= Z.of_nat (length (ignored_lines self)) ->
  Z.of_nat (length (ignored_lines self)) < n ->
  leading_lines node self = Raised IndexError.
Proof.
  intros Hn Hw Hlen. unfold leading_lines. rewrite Hn.
  rewrite leading_lines_loop_beyond; [reflexivity | exact Hw | lia].
Qed.

(** *** Operators, again *)

(** X11. [op_name] never raises and never returns an empty name, and its
    [strict] argument changes nothing: the result for [strict=True] is the
    result for [strict=False]. *)
Theorem op_name_ignores_strict (node : ast.node) (strict : bool) :
  op_name node strict = op_name node false /\
  exists name, op_name node strict = Ok name /\ Py.truthy name = true.
Proof.
  rewrite !op_name_total. split; [reflexivity |].
  eexists. split; [reflexivity |].
  destruct (d !! ast.class_name node) as [name |] eqn:H.
  - exact (op_table_spellings_nonempty _ _ H).
  - reflexivity.
Qed.

(** X12. When a comparison chain has as many operators as comparators,
    its text is the text of the left operand followed by each operator and
    its comparator, in order, and nothing is printed. *)
Theorem Compare_matched_renders_chain (st st1 st2 : state) (l : option Z)
    (lhs : ast.node) (ops comparators : list ast.node) (lt : string)
    (comps : list string) :
  visit lhs st = Ok (lt, st1) ->
  mapM visit comparators st1 = Ok (comps, st2) ->
  length ops = length comparators ->
  visit (ast.Compare l lhs ops comparators) st
  = Ok (lt +:+ Py.join0 (zip_with (fun o c => op_text o +:+ c) ops comps),
        st2).
Proof.
  intros Hl Hc Hlen. cbn [visit]. unfold do_Compare.
  unfold bind at 1. rewrite Hl.
  unfold bind at 1. rewrite mapM_self_op_name.
  unfold bind at 1. rewrite Hc.
  apply mapM_length in Hc.
  destruct (Nat.eqb_spec (length (map op_text ops)) (length comps)) as [_ | E].
  - unfold ret, Py.join0. rewrite concat0_cons. do 4 f_equal.
    clear. revert comps. induction ops as [| o ops IH]; intros comps.
    + reflexivity.
    + destruct comps as [| c comps]; [reflexivity |].
      cbn [map combine zip_with fst snd]. now rewrite IH.
  - rewrite length_map in E. congruence.
Qed.

(** *** Parameters *)

Lemma arguments_loop_spec (n_plain : Z) (defaults : list string)
    (args : list string) :
  forall i,
    0 <= i ->
    n_plain = i + Z.of_nat (length args) - Z.of_nat (length defaults) ->
    arguments_loop n_plain defaults i args
    = Ok (take (Z.to_nat (n_plain - i)) args
          ++ zip_with (fun a dv => a +:+ "=" +:+ dv)
               (drop (Z.to_nat (n_plain - i)) args)
               (drop (Z.to_nat (i - n_plain)) defaults)).
Proof.
  induction args as [| a args IH]; intros i Hi Hn.
  - cbn [arguments_loop]. now rewrite take_nil, drop_nil.
  - cbn [arguments_loop]. cbn [length] in Hn.
    rewrite (IH (i + 1)) by lia.
    destruct (Z.ltb_spec i n_plain) as [Hlt | Hge].
    + replace (Z.to_nat (n_plain - i))
        with (S (Z.to_nat (n_plain - (i + 1)))) by lia.
      cbn [take drop app].
      replace (Z.to_nat (i + 1 - n_plain)) with (Z.to_nat (i - n_plain))
        by lia.
      reflexivity.
    + rewrite getitem_nonneg by lia.
      destruct (lookup_lt_is_Some_2 defaults (Z.to_nat (i - n_plain)))
        as [dv Hdv]; [lia |].
      rewrite Hdv.
      replace (Z.to_nat (n_plain - i)) with 0%nat by lia.
      replace (Z.to_nat (n_plain - (i + 1))) with 0%nat by lia.
      rewrite !take_0, !drop_0. cbn [app].
      rewrite (drop_S _ _ _ Hdv). cbn [zip_with].
      replace (Z.to_nat (i + 1 - n_plain)) with (S (Z.to_nat (i - n_plain)))
        by lia.
      reflexivity.
Qed.

Lemma star_arg_starred (marker : string) (name : option ast.star_name) :
  star_arg marker name = starred marker name.
Proof.
  destruct name as [[n | la a] |]; [| reflexivity | reflexivity].
  now destruct n.
Qed.

(** X13. [do_arguments] gives the default values to the last parameters,
    one each and in order; the parameters before them render bare; with
    more defaults than parameters the last defaults are used.  Whatever the
    two lengths, the rule does not fail on a subscript.  The variadic
    parameters follow, [*] before the [vararg] name and [**] before the
    [kwarg] name: an [ast.arg] node always, an identifier when it is not
    empty. *)
Theorem arguments_defaults_go_last (st st1 st2 : state) (l : option Z)
    (args defaults : list ast.node) (vararg kwarg : option ast.star_name)
    (args' defaults' : list string) :
  mapM visit args st = Ok (args', st1) ->
  mapM visit defaults st1 = Ok (defaults', st2) ->
  visit (ast.arguments l args vararg kwarg defaults) st
  = Ok (Py.join ","
          (paired_with_defaults args' defaults'
           ++ starred "*" vararg ++ starred "**" kwarg), st2).
Proof.
  intros Ha Hd. cbn [visit]. unfold do_arguments.
  unfold bind at 1. rewrite Ha. unfold bind at 1. rewrite Hd.
  rewrite arguments_loop_spec by lia.
  unfold ret, paired_with_defaults.
  replace (Z.to_nat (Z.of_nat (length args') - Z.of_nat (length defaults')
                     - 0))
    with (length args' - length defaults')%nat by lia.
  replace (Z.to_nat (0 - (Z.of_nat (length args')
                          - Z.of_nat (length defaults'))))
    with (length defaults' - length args')%nat by lia.
  rewrite !star_arg_starred. reflexivity.
Qed.

(** *** Indentation *)

Lemma length_repeat (x : string) (n : Z) :
  String.length (Py.repeat x n) = (Z.to_nat n * String.length x)%nat.
Proof.
  unfold Py.repeat. induction (Z.to_nat n) as [| k IH]; [reflexivity |].
  cbn [List.repeat]. rewrite concat0_cons, length_append, IH. lia.
Qed.

Lemma indent_newlines_spec (x : string) :
  let (n, rest) := indent_newlines x in
  0 <= n /\ x = Py.repeat LF n +:+ rest /\
  Py.startswith LF rest = false.
Proof.
  induction x as [| c x IH]; cbn [indent_newlines].
  - split; [lia | split; reflexivity].
  - destruct (Ascii.eqb_spec c "010") as [-> | Hne].
    + destruct (indent_newlines x) as [n rest]. destruct IH as (Hn & Hx & Hs).
      split; [lia | split; [| exact Hs]].
      rewrite <- (Z2Nat.id n) by lia.
      replace (Z.of_nat (Z.to_nat n) + 1) with (Z.of_nat (S (Z.to_nat n)))
        by lia.
      rewrite repeat_succ, append_assoc. unfold LF at 1. rewrite append_cons.
      rewrite Z2Nat.id by lia. now rewrite <- Hx.
    + split; [lia | split; [reflexivity |]].
      unfold Py.startswith, LF. cbn [String.prefix].
      destruct (ascii_dec "010" c) as [E | _]; [now subst | reflexivity].
Qed.

(** X14. [indent] never fails and never changes the state.  It puts four
    blanks per level between the leading newlines of the text and the rest
    of it: the result is that many characters longer, and a negative level
    adds nothing. *)
Theorem indent_inserts_blanks (x : string) (st : state) :
  let (n, rest) := indent_newlines x in
  x = Py.repeat LF n +:+ rest /\
  Py.startswith LF rest = false /\
  indent x st
  = Ok (Py.repeat LF n +:+ Py.repeat "    " (level st) +:+ rest, st) /\
  String.length (Py.repeat LF n +:+ Py.repeat "    " (level st) +:+ rest)
  = (String.length x + 4 * Z.to_nat (level st))%nat.
Proof.
  pose proof (indent_newlines_spec x) as H.
  unfold indent, bind, get_level, ret.
  destruct (indent_newlines x) as [n rest]. destruct H as (Hn & Hx & Hs).
  split; [exact Hx | split; [exact Hs | split; [reflexivity |]]].
  rewrite Hx at 1. rewrite !length_append, !length_repeat.
  cbn [String.length]. lia.
Qed.

(** *** Rules that do not return *)

(** X15. [do_Continue] and [do_Global] never return a text: they take
    their leading lines as a list and then add a string to it, so a
    [continue] or a [global] statement always ends the rendering with an
    exception; each raises [TypeError] when its leading lines and its
    trailing comment are found. *)
Theorem Continue_and_Global_never_render (st : state) (l : option Z)
    (names : list string) :
  (exists e, visit (ast.Continue l) st = Raised e) /\
  (exists e, visit (ast.Global l names) st = Raised e) /\
  (forall head st1 tail st2,
     self_leading_lines (ast.Continue l) st = Ok (head, st1) ->
     self_trailing_comment (ast.Continue l) st1 = Ok (tail, st2) ->
     visit (ast.Continue l) st = Raised TypeError) /\
  (forall head st1 tail st2,
     self_leading_lines (ast.Global l names) st = Ok (head, st1) ->
     self_trailing_comment (ast.Global l names) st1 = Ok (tail, st2) ->
     visit (ast.Global l names) st = Raised TypeError).
Proof.
  split; [| split; [| split]].
  - cbn [visit]. unfold do_Continue, statement_list_head, bind.
    destruct (self_leading_lines _ st) as [[head st1] |]; [| eauto].
    destruct (self_trailing_comment _ st1) as [[tail st2] |]; [| eauto].
    destruct (indent _ st2) as [[line st3] |]; eauto.
  - cbn [visit]. unfold do_Global, statement_list_head, bind.
    destruct (self_leading_lines _ st) as [[head st1] |]; [| eauto].
    destruct (self_trailing_comment _ st1) as [[tail st2] |]; [| eauto].
    destruct (indent _ st2) as [[line st3] |]; eauto.
  - intros head st1 tail st2 Hh Ht.
    cbn [visit]. unfold do_Continue, statement_list_head, bind.
    rewrite Hh, Ht.
    unfold indent, bind, get_level. now destruct (indent_newlines _).
  - intros head st1 tail st2 Hh Ht.
    cbn [visit]. unfold do_Global, statement_list_head, bind.
    rewrite Hh, Ht.
    unfold indent, bind, get_level. now destruct (indent_newlines _).
Qed.

(** *** One-line statements *)

Lemma trailing_comment_scan_ends (tokens : list token) :
  exists before, trailing_comment_scan tokens = before +:+ LF.
Proof.
  induction tokens as [| tk rest IH]; cbn [trailing_comment_scan].
  - now exists EmptyString.
  - destruct (_ && _); [| exact IH].
    exists (" " +:+ Py.rstrip (token_val tk)). now rewrite append_assoc.
Qed.

Lemma self_trailing_comment_at_ends (lineno : option Z) (cls tail : string)
    (st st1 : state) :
  self_trailing_comment_at lineno cls st = Ok (tail, st1) ->
  exists before, tail = before +:+ LF.
Proof.
  unfold self_trailing_comment_at, trailing_comment_at.
  destruct lineno as [n |].
  - destruct (Py.getitem _ _) as [tokens |]; [| discriminate].
    intros H. injection H as <- _. apply trailing_comment_scan_ends.
  - intros H. injection H as <- _. now exists EmptyString.
Qed.

Lemma statement_ends (head x before out : string) (st st' : state) :
  statement head x (before +:+ LF) st = Ok (out, st') ->
  exists text, out = text +:+ LF.
Proof.
  unfold statement. intros H. apply bind_Ok in H as (line & st1 & _ & H).
  injection H as <- _. exists (head +:+ line +:+ before).
  now rewrite !append_assoc.
Qed.

Ltac to_statement H :=
  let Htail := fresh "Htail" in
  apply bind_Ok in H as (? & ? & _ & H);
  apply bind_Ok in H as (? & ? & Htail & H);
  apply self_trailing_comment_at_ends in Htail as [? ->];
  repeat (cbn beta in H;
          lazymatch type of H with
          | statement _ _ _ _ = _ => fail
          | _ => apply bind_Ok in H as (? & ? & _ & H)
          end);
  exact (statement_ends _ _ _ _ _ _ H).

(** X16. The text of a one-line statement (expression statement,
    assignment, augmented assignment, assert, break, del, exec, import,
    pass, print, raise, return, yield) ends with a newline whenever the
    rendering returns. *)
Theorem simple_statement_ends_with_newline (node : ast.node) (st st' : state)
    (out : string) :
  simple_statement node = true ->
  visit node st = Ok (out, st') ->
  exists text, out = text +:+ LF.
Proof.
  intros Hs H. destruct node; try discriminate Hs; clear Hs;
    cbn [visit] in H;
    unfold do_Expr, do_Assert, do_Assign, do_AugAssign, do_Break, do_Delete,
      do_Exec, do_Import, do_ImportFrom, do_Pass, do_Print, do_Raise,
      do_Return, do_Yield, self_trailing_comment in H.
  2-14: to_statement H.
  apply bind_Ok in H as (head & st1 & _ & H).
  apply bind_Ok in H as (tail & st2 & Htail & H).
  apply self_trailing_comment_at_ends in Htail as [before ->].
  apply bind_Ok in H as (x & st3 & _ & H).
  apply bind_Ok in H as (line & st4 & _ & H).
  injection H as <- _. exists (head +:+ line +:+ before).
  now rewrite !append_assoc.
Qed.

(** *** The string queues, again *)

Lemma visit_Str_pop (st : state) (n : Z) (x : string) (tk : token)
    (queue' : list token) :
  Py.getitem (string_tokens (sync st)) (n - 1) = Some (tk :: queue') ->
  exists queues',
    Py.getitem queues' (n - 1) = Some queue' /\
    visit (ast.Str (Some n) x) st
    = Ok (token_val tk,
          with_sync (set_string_tokens queues' (sync st)) [] st).
Proof.
  intros H. cbn [visit]. unfold do_Str. cbn [ast.lineno].
  unfold self_sync_string, sync_string. rewrite H.
  unfold Py.getitem, Py.setitem in *.
  destruct (Py.index _ (n - 1)) as [k |] eqn:Hk; [| discriminate].
  eexists. split; [| reflexivity].
  rewrite length_insert, Hk.
  apply list_lookup_insert_eq. now apply index_Some_lt in Hk.
Qed.

(** X17. The string queue of a line is first in, first out: string
    literals on line [n], rendered one after the other and no more of them
    than the queue holds, get the texts of the queued tokens in order, and
    the queue is left with the tokens that were not used. *)
Theorem string_queue_is_fifo (xs : list string) :
  forall (st : state) (n : Z) (queue : list token),
    Py.getitem (string_tokens (sync st)) (n - 1) = Some queue ->
    (length xs <= length queue)%nat ->
    exists st',
      mapM visit (map (ast.Str (Some n)) xs) st
      = Ok (map token_val (take (length xs) queue), st') /\
      Py.getitem (string_tokens (sync st')) (n - 1)
      = Some (drop (length xs) queue).
Proof.
  induction xs as [| x xs IH]; intros st n queue Hq Hlen.
  - exists st. split; [reflexivity |]. now rewrite drop_0.
  - destruct queue as [| tk queue]; [cbn in Hlen; lia |].
    cbn [length] in Hlen.
    destruct (visit_Str_pop st n x tk queue Hq) as (queues' & Hq' & Hv).
    destruct (IH (with_sync (set_string_tokens queues' (sync st)) [] st)
                n queue Hq') as (st' & Hm & Hrest); [lia |].
    exists st'. split; [| exact Hrest].
    cbn [map mapM]. unfold bind at 1. rewrite Hv.
    unfold bind at 1. rewrite Hm. reflexivity.
Qed.

(** *** What a rendering leaves behind *)

(** X18. When the rendering of a node returns, the class stack is what
    it was before; after a [format] call that returns, the level is 0 and
    the class stack is empty. *)
Theorem class_stack_restored_after_rendering (node : ast.node)
    (st st' : state) (out : string) :
  visit node st = Ok (out, st') ->
  class_stack st' = class_stack st /\
  (forall src tokens out' st'',
     format node src tokens = Ok (out', st'') ->
     level st'' = 0 /\ class_stack st'' = []).
Proof.
  intros H. split.
  - exact (proj2 (visit_frame node st out st' H)).
  - intros src tokens out' st'' Hf. unfold format in Hf.
    destruct (TokenSync_init src tokens) as [ts |]; [| discriminate].
    exact (visit_frame node _ _ _ Hf).
Qed.

Lemma sync_advances_refl (a : TokenSync) : sync_advances a a.
Proof.
  unfold sync_advances. repeat split; try reflexivity.
  intros k qa Hk. now exists qa.
Qed.

Lemma sync_advances_trans (a b c : TokenSync) :
  sync_advances a b -> sync_advances b c -> sync_advances a c.
Proof.
  intros (H1 & H2 & H3 & H4 & H5 & H6 & H7 & H8 & H9)
         (G1 & G2 & G3 & G4 & G5 & G6 & G7 & G8 & G9).
  unfold sync_advances. repeat split; try congruence; try lia.
  intros k qa Hk. destruct (H9 k qa Hk) as (qb & Hb & Hsb).
  destruct (G9 k qb Hb) as (qc & Hc & Hsc).
  exists qc. split; [exact Hc | now transitivity qb].
Qed.

Lemma advances_refl (st : state) : advances st st.
Proof. split; [apply sync_advances_refl | reflexivity]. Qed.

Lemma advances_trans (a b c : state) :
  advances a b -> advances b c -> advances a c.
Proof.
  intros [H1 H2] [G1 G2]. split.
  - now apply (sync_advances_trans _ (sync b)).
  - now transitivity (stdout b).
Qed.

Lemma monotone_ret {A} (a : A) : monotone (ret a).
Proof. intros st a' st' H. inversion H; subst. apply advances_refl. Qed.

Lemma monotone_raise {A} (e : exn) : monotone (@raise A e).
Proof. intros st a st' H. discriminate. Qed.

Lemma monotone_bind {A B} (m : M A) (k : A -> M B) :
  monotone m -> (forall a, monotone (k a)) -> monotone (bind m k).
Proof.
  intros Hm Hk st b st' H. apply bind_Ok in H as (a & st1 & H1 & H2).
  exact (advances_trans _ _ _ (Hm _ _ _ H1) (Hk a _ _ _ H2)).
Qed.

Lemma monotone_mapM {A B} (f : A -> M B) (l : list A) :
  Forall (fun x => monotone (f x)) l -> monotone (mapM f l).
Proof.
  induction 1 as [| x l Hx Hl IH]; cbn [mapM].
  - apply monotone_ret.
  - apply monotone_bind; [exact Hx | intros y].
    apply monotone_bind; [exact IH | intros ys]. apply monotone_ret.
Qed.

Lemma monotone_get_level : monotone get_level.
Proof. intros st a st' H. inversion H; subst. apply advances_refl. Qed.

Lemma monotone_set_level (v : Z) : monotone (set_level v).
Proof.
  intros st a st' H. inversion H; subst.
  split; [apply sync_advances_refl | reflexivity].
Qed.

Lemma monotone_get_class_stack : monotone get_class_stack.
Proof. intros st a st' H. inversion H; subst. apply advances_refl. Qed.

Lemma monotone_set_class_stack (v : list string) :
  monotone (set_class_stack v).
Proof.
  intros st a st' H. inversion H; subst.
  split; [apply sync_advances_refl | reflexivity].
Qed.

Lemma monotone_write (evs : list event) : monotone (write evs).
Proof.
  intros st a st' H. inversion H; subst.
  split; [apply sync_advances_refl | now apply prefix_app_r].
Qed.

Lemma leading_lines_advances (node : ast.node) (self self' : TokenSync)
    (l : list string) :
  leading_lines node self = Ok (l, self') -> sync_advances self self'.
Proof.
  intros H. pose proof (leading_lines_watermark _ _ _ _ H) as Hw.
  unfold leading_lines in H. destruct (ast.lineno node) as [n |].
  - destruct (leading_lines_loop _ _ _ _) as [[l0 i'] |]; [| discriminate].
    injection H as _ <-. cbn in Hw.
    unfold sync_advances. repeat split; try reflexivity; [exact Hw |].
    intros k qa Hk. now exists qa.
  - injection H as _ <-. apply sync_advances_refl.
Qed.

Lemma monotone_self_leading_lines (node : ast.node) :
  monotone (self_leading_lines node).
Proof.
  intros st a st' H. unfold self_leading_lines in H.
  destruct (leading_lines node (sync st)) as [[l ts] |] eqn:E;
    [| discriminate].
  injection H as _ <-. split; [| reflexivity].
  exact (leading_lines_advances _ _ _ _ E).
Qed.

Lemma monotone_self_leading_string (node : ast.node) :
  monotone (self_leading_string node).
Proof.
  intros st a st' H. unfold self_leading_string, leading_string in H.
  destruct (leading_lines node (sync st)) as [[l ts] |] eqn:E;
    [| discriminate].
  injection H as _ <-. split; [| reflexivity].
  exact (leading_lines_advances _ _ _ _ E).
Qed.

Lemma monotone_self_trailing_comment_at (lineno : option Z) (cls : string) :
  monotone (self_trailing_comment_at lineno cls).
Proof.
  intros st a st' H. unfold self_trailing_comment_at in H.
  destruct (trailing_comment_at lineno cls (sync st)) as [[x evs] |];
    [| discriminate].
  injection H as _ <-.
  split; [apply sync_advances_refl | now apply prefix_app_r].
Qed.

Lemma sync_string_advances (n : Z) (x y : string) (self self' : TokenSync)
    (evs : list event) :
  sync_string n x self = Ok (y, self', evs) -> sync_advances self self'.
Proof.
  unfold sync_string, Py.getitem, Py.setitem.
  destruct (Py.index _ (n - 1)) as [j |]; [| discriminate].
  destruct (string_tokens self !! j) as [[| tk queue] |] eqn:Hj;
    [| | discriminate]; intros H; injection H as _ <- _.
  - apply sync_advances_refl.
  - unfold sync_advances. cbn.
    repeat split; try reflexivity; try lia; try (now rewrite length_insert).
    intros k qa Hk. destruct (decide (j = k)) as [-> | Hne].
    + exists queue. split.
      * apply list_lookup_insert_eq. now apply lookup_lt_Some in Hk.
      * assert (qa = tk :: queue) as -> by congruence.
        now apply suffix_cons_r.
    + exists qa. now rewrite list_lookup_insert_ne.
Qed.

Lemma monotone_self_sync_string (n : Z) (x : string) :
  monotone (self_sync_string n x).
Proof.
  intros st a st' H. unfold self_sync_string in H.
  destruct (sync_string n x (sync st)) as [[[y ts] evs] |] eqn:E;
    [| discriminate].
  injection H as _ <-.
  split; [exact (sync_string_advances _ _ _ _ _ _ E) | now apply prefix_app_r].
Qed.

Lemma monotone_self_op_name (node : ast.node) : monotone (self_op_name node).
Proof.
  intros st a st' H. unfold self_op_name in H.
  destruct (op_name node true); [| discriminate].
  injection H as _ <-. apply advances_refl.
Qed.

Lemma monotone_indent (x : string) : monotone (indent x).
Proof.
  unfold indent. apply monotone_bind; [apply monotone_get_level | intros lvl].
  destruct (indent_newlines x). apply monotone_ret.
Qed.

Lemma monotone_Dict_loop
    (entries : list ((option ast.node * M string) * (ast.node * M string))) :
  Forall (fun e => monotone (snd (fst e)) /\ monotone (snd (snd e))) entries ->
  monotone (Dict_loop entries).
Proof.
  induction 1 as [| [[key vk] [value vv]] entries [Hk Hv] _ IH];
    cbn [Dict_loop]; [apply monotone_ret |].
  cbn [fst snd] in Hk, Hv.
  apply monotone_bind.
  { destruct key; [apply monotone_self_leading_lines | apply monotone_ret]. }
  intros head. apply monotone_bind; [apply monotone_self_trailing_comment_at |].
  intros tail. apply monotone_bind; [exact Hk | intros k].
  apply monotone_bind; [exact Hv | intros v0].
  apply monotone_bind; [apply monotone_indent | intros line].
  apply monotone_bind; [exact IH | intros items]. apply monotone_ret.
Qed.

Lemma monotone_visit_or_none (v : ast.node -> M string)
    (x : option ast.node) :
  option_all ast.node (fun n => monotone (v n)) x ->
  monotone (visit_or_none v x).
Proof.
  destruct x as [n |]; cbn [visit_or_none]; [| intros _; apply monotone_ret].
  now inversion 1.
Qed.

Lemma monotone_Dict_keys (v : ast.node -> M string)
    (keys : list (option ast.node)) :
  list_all (option ast.node) (option_all ast.node (fun n => monotone (v n)))
    keys
  -> Forall (fun k => monotone (visit_or_none v k)) keys.
Proof.
  induction 1; constructor; [now apply monotone_visit_or_none | assumption].
Qed.

Lemma monotone_Dict_entries (v : ast.node -> M string)
    (keys : list (option ast.node)) :
  Forall (fun k => monotone (visit_or_none v k)) keys ->
  forall values,
    Forall (fun x => monotone (v x)) values ->
    Forall (fun e => monotone (snd (fst e)) /\ monotone (snd (snd e)))
      (combine (map (fun k => (k, visit_or_none v k)) keys)
               (map (fun x => (x, v x)) values)).
Proof.
  induction 1 as [| k keys Hk _ IH]; intros values Hv; [constructor |].
  destruct Hv as [| x values Hx Hv]; [constructor |].
  cbn [map combine]. constructor; [now split | now apply IH].
Qed.

Ltac monotone_step :=
  first
    [ assumption
    | apply monotone_ret
    | apply monotone_raise
    | apply monotone_get_level
    | apply monotone_set_level
    | apply monotone_get_class_stack
    | apply monotone_set_class_stack
    | apply monotone_write
    | apply monotone_self_leading_lines
    | apply monotone_self_leading_string
    | apply monotone_self_trailing_comment_at
    | apply monotone_self_sync_string
    | apply monotone_self_op_name
    | apply monotone_indent
    | apply monotone_Dict_loop, monotone_Dict_entries;
      [now apply monotone_Dict_keys | assumption]
    | apply monotone_mapM
    | apply monotone_bind; [| intros ?]
    | match goal with
      | |- monotone (match ?x with _ => _ end) => destruct x
      | |- monotone (if ?b then _ else _) => destruct b
      | |- Forall _ _ =>
          eapply Forall_impl; [eassumption | cbn beta; intros ? ?]
      | |- Forall _ _ => apply Forall_forall; intros ? _
      end ].

Lemma visit_monotone (node : ast.node) : monotone (visit node).
Proof.
  induction node using ast.node_ind; cbn [visit].
  all: try (unfold do_ClassDef, do_FunctionDef, do_Interactive, do_Module,
    do_Lambda, do_Expr, do_Expression, do_GeneratorExp, do_arguments, do_arg,
    do_Attribute, do_Bytes, do_Call, do_keyword, do_comprehension, do_Dict,
    do_Ellipsis, do_ExtSlice, do_Index, do_List, do_ListComp, do_Name,
    do_NameConstant, do_Num, do_Repr, do_Slice, do_Str, do_Subscript,
    do_Tuple, do_BinOp, do_BoolOp, do_Compare, do_IfExp, do_UnaryOp,
    do_Assert, do_Assign, do_AugAssign, do_Break, do_Continue, do_Delete,
    do_ExceptHandler, do_Exec, do_For, do_Global, do_If, do_Import,
    do_ImportFrom, do_Pass, do_Print, do_Raise, do_Return, do_Try,
    do_TryExcept, do_TryFinally, do_While, do_With, do_Yield,
    statement, statement_list_head, orelse_plain, clause_list_tail,
    visit_present, visit_if_present, visit_or_none, visit_body, indented,
    with_class, self_trailing_comment, self_trailing_comment_list).
  all: repeat match goal with
       | H : list_all _ _ _ |- _ => apply list_all_Forall in H
       end.
  all: repeat match goal with
       | H : option_all _ _ ?o |- _ =>
           destruct o; [inversion H; subst; clear H | clear H]
       | H : sum_all _ _ _ _ ?o |- _ =>
           destruct o; inversion H; subst; clear H
       end.
  all: repeat monotone_step.
Qed.

(** X19. All that the rendering of a node does to the [TokenSync] object
    is to move the watermark up and to take tokens from the front of string
    queues: the source text, the buckets, the blank lines and the ignored
    lines are those of before, no queue gains a token, and what was written
    to standard output stays written. *)
Theorem rendering_only_advances (node : ast.node) (st st' : state)
    (out : string) :
  visit node st = Ok (out, st') ->
  s (sync st') = s (sync st) /\
  line_tokens (sync st') = line_tokens (sync st) /\
  ignored_lines (sync st') = ignored_lines (sync st) /\
  first_leading_line (sync st) <= first_leading_line (sync st') /\
  (forall k queue,
     string_tokens (sync st) !! k = Some queue ->
     exists queue',
       string_tokens (sync st') !! k = Some queue' /\ suffix queue' queue) /\
  prefix (stdout st) (stdout st').
Proof.
  intros H.
  destruct (visit_monotone node st out st' H)
    as [(H1 & _ & _ & H4 & _ & H6 & H7 & _ & H9) Hout].
  repeat split; assumption.
Qed.

(** *** Fatal errors *)

Lemma mapM_raises_at {A B} (f : A -> M B) (pre post : list A) (bad : A)
    (st st1 : state) (ys : list B) (e : exn) :
  mapM f pre st = Ok (ys, st1) ->
  f bad st1 = Raised e ->
  mapM f (pre ++ bad :: post) st = Raised e.
Proof.
  revert st ys. induction pre as [| x pre IH]; intros st ys Hpre Hbad.
  - injection Hpre as _ <-. cbn [app mapM]. unfold bind. now rewrite Hbad.
  - cbn [app mapM] in Hpre |- *.
    apply bind_Ok in Hpre as (y & st0 & Hx & Hpre).
    apply bind_Ok in Hpre as (ys0 & st2 & Hpre & Hret).
    injection Hret as _ <-.
    unfold bind at 1. rewrite Hx. unfold bind at 1.
    now rewrite (IH _ _ Hpre Hbad).
Qed.

(** X20. An exception is fatal for the whole module: when the statements
    before one render and that one raises, the rendering of the module
    raises the same exception, and no text is returned.  A statement of a
    class without a rule is such a statement: it raises [AttributeError]. *)
Theorem Module_fails_with_its_statement (st st1 : state) (l : option Z)
    (pre post : list ast.node) (bad : ast.node) (outs : list string)
    (e : exn) :
  mapM visit pre st = Ok (outs, st1) ->
  visit bad st1 = Raised e ->
  visit (ast.Module l (pre ++ bad :: post)) st = Raised e /\
  (forall l' kind,
     visit (ast.Module l (pre ++ ast.Other l' kind :: post)) st
     = Raised (AttributeError ("do_" +:+ kind))).
Proof.
  intros Hpre Hbad. split.
  - cbn [visit]. unfold do_Module, bind.
    now rewrite (mapM_raises_at visit pre post bad st st1 outs e Hpre Hbad).
  - intros l' kind. cbn [visit]. unfold do_Module, bind.
    now rewrite (mapM_raises_at visit pre post (ast.Other l' kind) st st1 outs
                   (AttributeError ("do_" +:+ kind)) Hpre eq_refl).
Qed.

End Program.

(** ** The properties on the sample inputs *)

Lemma note_sync_init :
  TokenSync_init py27_tok_name py27_NEWLINE note_src note_tokens
  = Ok note_sync.
Proof. vm_compute. reflexivity. Qed.

Lemma leading_lines_without_lineno_witness :
  ast.lineno (ast.arguments None [] None None []) = None /\
  leading_lines (ast.arguments None [] None None []) note_sync
  = Ok ([], note_sync) /\
  leading_string (ast.arguments None [] None None []) note_sync
  = Ok (EmptyString, note_sync).
Proof.
  split; [reflexivity |].
  apply (leading_lines_without_lineno (ast.arguments None [] None None [])
           note_sync).
  reflexivity.
Defined.

Lemma trailing_comment_spec_witness :
  ast.lineno (ast.Pass (Some 3)) = Some 3 /\
  Py.getitem (line_tokens note_sync) (3 - 1)
  = Some [tok_x; tok_eq; tok_a; tok_note; tok_newline] /\
  trailing_comment py27_tok_name (ast.Pass (Some 3)) note_sync
  = Ok (" # note" +:+ LF, []).
Proof.
  split; [reflexivity |]. split; [reflexivity |].
  apply (trailing_comment_spec py27_tok_name (ast.Pass (Some 3)) note_sync 3
           [tok_x; tok_eq; tok_a; tok_note; tok_newline]);
    reflexivity.
Defined.

Lemma Str_underflow_and_pop_witness :
  Py.getitem (string_tokens (sync note_state)) (3 - 1) = Some [tok_a] /\
  exists queues',
    Py.setitem (string_tokens (sync note_state)) (3 - 1) [] = Some queues' /\
    Py.getitem queues' (3 - 1) = Some [] /\
    visit py27_tok_name (ast.Str (Some 3) "a") note_state
    = Ok ("'a'", with_sync (set_string_tokens queues' (sync note_state)) []
                   note_state).
Proof.
  split; [reflexivity |].
  apply (Str_underflow_and_pop py27_tok_name note_state 3 "a" [tok_a]).
  reflexivity.
Defined.


Lemma leading_lines_cover_ignored_once_witness :
  TokenSync_init py27_tok_name py27_NEWLINE note_src note_tokens
  = Ok note_sync /\
  Sorted Z.le [3; 3] /\
  3 <= Z.of_nat (length (lines note_sync)) + 1 /\
  exists outs ts',
    leading_lines_seq [ast.Name (Some 3) "x"; ast.Str (Some 3) "a"] note_sync
    = Ok (outs, ts') /\
    concat outs = ignored_before (ignored_lines note_sync) 3 /\
    concat outs = ["# top" +:+ LF; LF] /\
    ignored_lines ts' = ignored_lines note_sync /\
    first_leading_line note_sync <= first_leading_line ts'.
Proof.
  assert (H : TokenSync_init py27_tok_name py27_NEWLINE note_src note_tokens
              = Ok note_sync) by (vm_compute; reflexivity).
  assert (Hs : Sorted Z.le [3; 3]) by (repeat constructor; lia).
  assert (Hb : 3 <= Z.of_nat (length (lines note_sync)) + 1)
    by (vm_compute; discriminate).
  split; [exact H |]. split; [exact Hs |]. split; [exact Hb |].
  destruct (proj1 (leading_lines_cover_ignored_once py27_tok_name py27_NEWLINE
                     note_src note_tokens note_sync
                     [ast.Name (Some 3) "x"; ast.Str (Some 3) "a"] [3; 3] 3
                     H eq_refl Hs eq_refl Hb))
    as (outs & ts' & Hseq & Hcat & Hig & Hw).
  exists outs, ts'.
  split; [exact Hseq |]. split; [exact Hcat |].
  split; [rewrite Hcat; vm_compute; reflexivity |].
  split; [exact Hig | exact Hw].
Defined.

Lemma level_restored_after_rendering_witness :
  visit py27_tok_name
    (ast.If (Some 3) (ast.Name (Some 3) "x") [ast.Pass (Some 3)] [])
    note_state
  = Ok ("# top" +:+ LF +:+ LF +:+ "if x: # note" +:+ LF
        +:+ "    pass # note" +:+ LF,
        mkState 0 [] (set_first_leading_line 3 note_sync) []) /\
  level (mkState 0 [] (set_first_leading_line 3 note_sync) [])
  = level note_state /\
  Forall
    (rendered_one_deeper py27_tok_name (level note_state)
       ("# top" +:+ LF +:+ LF +:+ "if x: # note" +:+ LF
        +:+ "    pass # note" +:+ LF))
    [[ast.Pass (Some 3)]; []].
Proof.
  assert (H : visit py27_tok_name
                (ast.If (Some 3) (ast.Name (Some 3) "x") [ast.Pass (Some 3)] [])
                note_state
              = Ok ("# top" +:+ LF +:+ LF +:+ "if x: # note" +:+ LF
                    +:+ "    pass # note" +:+ LF,
                    mkState 0 [] (set_first_leading_line 3 note_sync) []))
    by (vm_compute; reflexivity).
  split; [exact H |].
  exact (level_restored_after_rendering py27_tok_name _ _ _ _ H).
Defined.

(** C2, as stated, fails: for [a < b c] with one operator and two
    comparators, the result is the left operand alone and contains neither
    comparator. *)
Lemma Compare_mismatch_drops_comparators :
  visit py27_tok_name
    (ast.Compare None (ast.Name None "a") [ast.Other None "Lt"]
       [ast.Name None "b"; ast.Name None "c"]) empty_state
  = Ok ("a", mkState 0 [] empty_sync [print_can_not_happen ["<"] ["b"; "c"]])
  /\ Py.contains "b" "a" = false /\ Py.contains "c" "a" = false.
Proof. repeat split; vm_compute; reflexivity. Qed.

Lemma Compare_mismatch_renders_left_operand_witness :
  visit py27_tok_name (ast.Name None "a") empty_state = Ok ("a", empty_state)
  /\ mapM (visit py27_tok_name) [ast.Name None "b"; ast.Name None "c"]
       empty_state = Ok (["b"; "c"], empty_state)
  /\ length [ast.Other None "Lt"]
     <> length [ast.Name None "b"; ast.Name None "c"]
  /\ visit py27_tok_name
       (ast.Compare None (ast.Name None "a") [ast.Other None "Lt"]
          [ast.Name None "b"; ast.Name None "c"]) empty_state
     = Ok ("a", mkState 0 [] empty_sync
                  [print_can_not_happen (map op_text [ast.Other None "Lt"])
                     ["b"; "c"]]).
Proof.
  split; [reflexivity |]. split; [reflexivity |]. split; [discriminate |].
  apply (Compare_mismatch_renders_left_operand py27_tok_name empty_state
           empty_state empty_state None (ast.Name None "a")
           [ast.Other None "Lt"] [ast.Name None "b"; ast.Name None "c"]
           "a" ["b"; "c"]);
    [reflexivity | reflexivity | discriminate].
Defined.

(** C6, as stated, fails: at module level, with an empty class stack, a
    bare [self] and [self.x] are rewritten all the same. *)
Lemma self_rewritten_outside_any_scope :
  class_stack empty_state = [] /\ level empty_state = 0 /\
  visit py27_tok_name (ast.Name None "self") empty_state
  = Ok ("@", empty_state) /\
  visit py27_tok_name (ast.Attribute None (ast.Name None "self") "x")
    empty_state
  = Ok ("@x", empty_state).
Proof. repeat split; reflexivity. Qed.

Lemma self_renders_as_sigil_in_any_scope_witness :
  Forall (fun a : option Z * string => snd a <> EmptyString) [(None, "x"); (None, "y")]
  /\ visit py27_tok_name
       (attribute_chain (ast.Name None "self") [(None, "x"); (None, "y")])
       empty_state
     = Ok ("@x.y", empty_state).
Proof.
  assert (H : Forall (fun a : option Z * string => snd a <> EmptyString)
                [(None, "x"); (None, "y")])
    by (repeat constructor; discriminate).
  split; [exact H |].
  exact (proj1 (self_renders_as_sigil_in_any_scope py27_tok_name empty_state
                  None [(None, "x"); (None, "y")] H)).
Defined.



Lemma leading_whitespace_round_trip_witness :
  10 < 2 ^ 53 /\
  computeLeadingWhitespaceWidth (computeLeadingWhitespace 10 4) 4 = Some 10.
Proof.
  split; [reflexivity |].
  apply (leading_whitespace_round_trip 10 4). reflexivity.
Defined.

Lemma ReadLinesClass_reads_the_text_witness :
  (length (splitLines ("a" +:+ LF +:+ "b")) <= 3)%nat /\
  exists ls self',
    ReadLinesClass.read 3 (ReadLinesClass.init ("a" +:+ LF +:+ "b"))
    = Ok (ls, self') /\
    ls = splitLines ("a" +:+ LF +:+ "b")
         ++ replicate (3 - length (splitLines ("a" +:+ LF +:+ "b")))
              EmptyString /\
    Py.join0 ls = "a" +:+ LF +:+ "b" /\
    ReadLinesClass.next self' = Ok (EmptyString, self').
Proof.
  assert (H : (length (splitLines ("a" +:+ LF +:+ "b")) <= 3)%nat)
    by (vm_compute; lia).
  split; [exact H |].
  exact (ReadLinesClass_reads_the_text ("a" +:+ LF +:+ "b") 3 H).
Defined.

Lemma TokenSync_init_shape_witness :
  TokenSync_init py27_tok_name py27_NEWLINE note_src note_tokens
  = Ok note_sync /\
  length (line_tokens note_sync) = (length (lines note_sync) + 1)%nat /\
  0 <= first_leading_line note_sync
    <= Z.of_nat (length (lines note_sync)) + 1.
Proof.
  assert (H : TokenSync_init py27_tok_name py27_NEWLINE note_src note_tokens
              = Ok note_sync) by (vm_compute; reflexivity).
  split; [exact H |].
  destruct (TokenSync_init_shape py27_tok_name py27_NEWLINE note_src
              note_tokens note_sync H) as (_ & _ & H3 & _ & _ & H6 & _).
  split; [exact H3 | exact H6].
Defined.

Lemma line_tokens_partition_the_stream_witness :
  TokenSync_init py27_tok_name py27_NEWLINE note_src note_tokens
  = Ok note_sync /\
  concat (line_tokens note_sync) ≡ₚ note_tokens.
Proof.
  assert (H : TokenSync_init py27_tok_name py27_NEWLINE note_src note_tokens
              = Ok note_sync) by (vm_compute; reflexivity).
  split; [exact H |].
  exact (proj1 (line_tokens_partition_the_stream py27_tok_name py27_NEWLINE
                  note_src note_tokens note_sync H)).
Defined.

Lemma ignored_lines_by_bucket_witness :
  TokenSync_init py27_tok_name py27_NEWLINE note_src note_tokens
  = Ok note_sync /\
  ignored_lines note_sync
  = map (ignored_entry py27_tok_name (make_nl_token py27_NEWLINE))
      (line_tokens note_sync).
Proof.
  assert (H : TokenSync_init py27_tok_name py27_NEWLINE note_src note_tokens
              = Ok note_sync) by (vm_compute; reflexivity).
  split; [exact H |].
  exact (proj1 (ignored_lines_by_bucket py27_tok_name py27_NEWLINE note_src
                  note_tokens note_sync H)).
Defined.

Lemma leading_lines_twice_witness :
  leading_lines (ast.Pass (Some 3)) note_sync
  = Ok (["# top" +:+ LF; LF], set_first_leading_line 3 note_sync) /\
  leading_lines (ast.Pass (Some 3)) (set_first_leading_line 3 note_sync)
  = Ok ([], set_first_leading_line 3 note_sync).
Proof.
  assert (H : leading_lines (ast.Pass (Some 3)) note_sync
              = Ok (["# top" +:+ LF; LF], set_first_leading_line 3 note_sync))
    by (vm_compute; reflexivity).
  split; [exact H |].
  exact (leading_lines_twice (ast.Pass (Some 3)) note_sync _ _ H).
Defined.

Lemma leading_lines_beyond_the_source_witness :
  ast.lineno (ast.Pass (Some 9)) = Some 9 /\
  0 <= first_leading_line note_sync
    <= Z.of_nat (length (ignored_lines note_sync)) /\
  Z.of_nat (length (ignored_lines note_sync)) < 9 /\
  leading_lines (ast.Pass (Some 9)) note_sync = Raised IndexError.
Proof.
  assert (Hw : 0 <= first_leading_line note_sync
               <= Z.of_nat (length (ignored_lines note_sync)))
    by (vm_compute; split; discriminate).
  assert (Hl : Z.of_nat (length (ignored_lines note_sync)) < 9)
    by reflexivity.
  split; [reflexivity |]. split; [exact Hw |]. split; [exact Hl |].
  exact (leading_lines_beyond_the_source (ast.Pass (Some 9)) note_sync 9
           eq_refl Hw Hl).
Defined.

Lemma Compare_matched_renders_chain_witness :
  visit py27_tok_name (ast.Name None "a") empty_state = Ok ("a", empty_state)
  /\ mapM (visit py27_tok_name) [ast.Name None "b"; ast.Name None "c"]
       empty_state = Ok (["b"; "c"], empty_state)
  /\ length [ast.Other None "Lt"; ast.Other None "LtE"]
     = length [ast.Name None "b"; ast.Name None "c"]
  /\ visit py27_tok_name
       (ast.Compare None (ast.Name None "a")
          [ast.Other None "Lt"; ast.Other None "LtE"]
          [ast.Name None "b"; ast.Name None "c"]) empty_state
     = Ok ("a<b<=c", empty_state).
Proof.
  split; [reflexivity |]. split; [reflexivity |]. split; [reflexivity |].
  exact (Compare_matched_renders_chain py27_tok_name empty_state empty_state
           empty_state None (ast.Name None "a")
           [ast.Other None "Lt"; ast.Other None "LtE"]
           [ast.Name None "b"; ast.Name None "c"] "a" ["b"; "c"]
           eq_refl eq_refl eq_refl).
Defined.

Lemma arguments_defaults_go_last_witness :
  mapM (visit py27_tok_name) [ast.Name None "a"; ast.Name None "b"]
    empty_state = Ok (["a"; "b"], empty_state) /\
  mapM (visit py27_tok_name) [ast.Num None "1"] empty_state
  = Ok (["1"], empty_state) /\
  visit py27_tok_name
    (ast.arguments None [ast.Name None "a"; ast.Name None "b"]
       (Some (ast.ArgNode None EmptyString)) (Some (ast.Identifier "kw"))
       [ast.Num None "1"]) empty_state
  = Ok ("a,b=1,*,**kw", empty_state).
Proof.
  split; [reflexivity |]. split; [reflexivity |].
  exact (arguments_defaults_go_last py27_tok_name empty_state empty_state
           empty_state None [ast.Name None "a"; ast.Name None "b"]
           [ast.Num None "1"] (Some (ast.ArgNode None EmptyString))
           (Some (ast.Identifier "kw")) ["a"; "b"] ["1"]
           eq_refl eq_refl).
Defined.

Lemma simple_statement_ends_with_newline_witness :
  simple_statement (ast.Pass (Some 3)) = true /\
  visit py27_tok_name (ast.Pass (Some 3)) note_state
  = Ok ("# top" +:+ LF +:+ LF +:+ "pass # note" +:+ LF,
        mkState 0 [] (set_first_leading_line 3 note_sync) []) /\
  exists text,
    "# top" +:+ LF +:+ LF +:+ "pass # note" +:+ LF = text +:+ LF.
Proof.
  assert (H : visit py27_tok_name (ast.Pass (Some 3)) note_state
              = Ok ("# top" +:+ LF +:+ LF +:+ "pass # note" +:+ LF,
                    mkState 0 [] (set_first_leading_line 3 note_sync) []))
    by (vm_compute; reflexivity).
  split; [reflexivity |]. split; [exact H |].
  exact (simple_statement_ends_with_newline py27_tok_name (ast.Pass (Some 3))
           _ _ _ eq_refl H).
Defined.

Lemma string_queue_is_fifo_witness :
  Py.getitem (string_tokens (sync note_state)) (3 - 1) = Some [tok_a] /\
  (length ["a"] <= length [tok_a])%nat /\
  exists st',
    mapM (visit py27_tok_name) (map (ast.Str (Some 3)) ["a"]) note_state
    = Ok (map token_val (take (length ["a"]) [tok_a]), st') /\
    Py.getitem (string_tokens (sync st')) (3 - 1)
    = Some (drop (length ["a"]) [tok_a]).
Proof.
  assert (Hl : (length ["a"] <= length [tok_a])%nat) by (cbn; lia).
  split; [reflexivity |]. split; [exact Hl |].
  exact (string_queue_is_fifo py27_tok_name ["a"] note_state 3 [tok_a]
           eq_refl Hl).
Defined.

Lemma class_stack_restored_after_rendering_witness :
  visit py27_tok_name
    (ast.ClassDef (Some 3) "C" [] [ast.Pass (Some 3)]) note_state
  = Ok ("# top" +:+ LF +:+ LF +:+ "class C # note" +:+ LF
        +:+ "    pass # note" +:+ LF,
        mkState 0 [] (set_first_leading_line 3 note_sync) []) /\
  class_stack (mkState 0 [] (set_first_leading_line 3 note_sync) [])
  = class_stack note_state.
Proof.
  assert (H : visit py27_tok_name
                (ast.ClassDef (Some 3) "C" [] [ast.Pass (Some 3)]) note_state
              = Ok ("# top" +:+ LF +:+ LF +:+ "class C # note" +:+ LF
                    +:+ "    pass # note" +:+ LF,
                    mkState 0 [] (set_first_leading_line 3 note_sync) []))
    by (vm_compute; reflexivity).
  split; [exact H |].
  exact (proj1 (class_stack_restored_after_rendering py27_tok_name
                  py27_NEWLINE _ _ _ _ H)).
Defined.

Lemma rendering_only_advances_witness :
  visit py27_tok_name
    (ast.Assign (Some 3) [ast.Name (Some 3) "x"] (ast.Str (Some 3) "a"))
    note_state
  = Ok ("# top" +:+ LF +:+ LF +:+ "x='a' # note" +:+ LF,
        mkState 0 []
          (set_string_tokens [[]; []; []; []]
             (set_first_leading_line 3 note_sync)) []) /\
  first_leading_line (sync note_state) <= 3 /\
  line_tokens (set_string_tokens [[]; []; []; []]
                 (set_first_leading_line 3 note_sync))
  = line_tokens (sync note_state).
Proof.
  assert (H : visit py27_tok_name
                (ast.Assign (Some 3) [ast.Name (Some 3) "x"]
                   (ast.Str (Some 3) "a")) note_state
              = Ok ("# top" +:+ LF +:+ LF +:+ "x='a' # note" +:+ LF,
                    mkState 0 []
                      (set_string_tokens [[]; []; []; []]
                         (set_first_leading_line 3 note_sync)) []))
    by (vm_compute; reflexivity).
  split; [exact H |].
  destruct (rendering_only_advances py27_tok_name _ _ _ _ H)
    as (_ & H2 & _ & H4 & _).
  split; [exact H4 | exact H2].
Defined.

Lemma Module_fails_with_its_statement_witness :
  mapM (visit py27_tok_name) [ast.Pass None] empty_state
  = Ok (["pass" +:+ LF],
        mkState 0 [] empty_sync [trace_no_lineno "Pass"]) /\
  visit py27_tok_name (ast.Continue None)
    (mkState 0 [] empty_sync [trace_no_lineno "Pass"])
  = Raised TypeError /\
  visit py27_tok_name
    (ast.Module None ([ast.Pass None] ++ ast.Continue None :: [ast.Pass None]))
    empty_state
  = Raised TypeError.
Proof.
  assert (H1 : mapM (visit py27_tok_name) [ast.Pass None] empty_state
               = Ok (["pass" +:+ LF],
                     mkState 0 [] empty_sync [trace_no_lineno "Pass"]))
    by (vm_compute; reflexivity).
  assert (H2 : visit py27_tok_name (ast.Continue None)
                 (mkState 0 [] empty_sync [trace_no_lineno "Pass"])
               = Raised TypeError) by (vm_compute; reflexivity).
  split; [exact H1 |]. split; [exact H2 |].
  exact (proj1 (Module_fails_with_its_statement py27_tok_name _ _ None
                  [ast.Pass None] [ast.Pass None] (ast.Continue None) _ _
                  H1 H2)).
Defined.
